(** * ProGest2: the analytics queries and request handlers of [app.py]

    A shallow embedding of the Flask application [src/app.py]: the five
    tables declared through the ORM, the SQL primitives its queries are
    built from (inner join, GROUP BY, SUM / COUNT, COALESCE, ORDER BY ...
    DESC), the four BI queries of [bi_dashboard], the statistics of
    [index], and the two creation handlers [cadastrarProprietario] and
    [lotes]. *)

From Stdlib Require Import ZArith Ascii List Sorting.Sorted Permutation Lia.
From stdpp Require Import base decidable option list sorting strings gmap.

Local Open Scope string_scope.
Local Open Scope Z_scope.

(** ** The tables

    One record per ORM class; a column declared [nullable=False] has the
    type of its values, a nullable column an [option]. [Numeric(10, 2)]
    is a fixed-point decimal with two fractional digits: it is kept as the
    integer number of hundredths (10.00 ha is [1000]). *)

Record Dono := mkDono {
  dono_id : Z;
  dono_nome : string;
  dono_cpf_cnpj : string;
  dono_email : option string;
  dono_telefone : option string
}.

Record Propriedade := mkPropriedade {
  prop_id : Z;
  prop_nome : string;
  prop_municipio : string;
  prop_estado : string;
  prop_area_total_ha : Z;
  prop_dono_id : Z
}.

Record Animal := mkAnimal {
  animal_id : Z;
  animal_tipo : string;
  animal_raca : option string
}.

(** A calendar date, as [datetime.date] holds it. *)
Record Date := mkDate { date_year : Z; date_month : Z; date_day : Z }.

Record Lote := mkLote {
  lote_id : Z;
  lote_propriedade_id : Z;
  lote_animal_id : Z;
  lote_quantidade : Z;
  lote_data_registro : option Date
}.

Record Store := mkStore {
  donos : list Dono;
  propriedades : list Propriedade;
  animais : list Animal;
  lotes : list Lote
}.

Global Instance Dono_eq_dec : EqDecision Dono.
Proof. solve_decision. Defined.
Global Instance Propriedade_eq_dec : EqDecision Propriedade.
Proof. solve_decision. Defined.
Global Instance Animal_eq_dec : EqDecision Animal.
Proof. solve_decision. Defined.
Global Instance Date_eq_dec : EqDecision Date.
Proof. solve_decision. Defined.
Global Instance Lote_eq_dec : EqDecision Lote.
Proof. solve_decision. Defined.

(** ** The SQL primitives the queries use *)

Module SQL.

(** [SUM(col)] over the rows of a group: NULL on no row. *)
Definition sum_list (l : list Z) : Z := foldr Z.add 0 l.

Definition SUM (l : list Z) : option Z :=
  match l with
  | [] => None
  | _ => Some (sum_list l)
  end.

(** [COUNT(col)] of a column that is never NULL. *)
Definition COUNT {A} (l : list A) : Z := Z.of_nat (length l).

Definition COALESCE (v : option Z) (d : Z) : Z := default d v.

(** [GROUP BY key]: one group per distinct key value, holding the rows
    with that key. NULL keys ([None]) form one group of their own. *)
Definition group_by {A K} `{EqDecision K} (key : A → K) (rows : list A)
  : list (K * list A) :=
  (λ k, (k, filter (λ r, key r = k) rows)) <$> remove_dups (key <$> rows).

(** [ORDER BY key DESC] on a nullable number: MySQL puts NULL below
    every value, so last in descending order. *)
Definition null_le (a b : option Z) : Prop :=
  match a, b with
  | None, _ => True
  | Some _, None => False
  | Some x, Some y => x ≤ y
  end.

Global Instance null_le_dec a b : Decision (null_le a b).
Proof. destruct a, b; simpl; apply _. Defined.

Definition desc {A} (key : A → option Z) : relation A :=
  λ r1 r2, null_le (key r2) (key r1).

Global Instance desc_dec {A} (key : A → option Z) r1 r2 :
  Decision (desc key r1 r2).
Proof. unfold desc. apply _. Defined.

Definition order_by_desc {A} (key : A → option Z) (rows : list A) : list A :=
  merge_sort (desc key) rows.

End SQL.

(** ** The four queries of [bi_dashboard]

    Each query is the pipeline the ORM expression spells: the joined rows,
    [group_by], [order_by] on the aggregate, then the selected columns. *)

(** Python's [s or "Não informado"]: [None] and the empty string are the
    falsy values of a nullable string column. *)
Definition or_nao_informado (s : option string) : string :=
  match s with
  | None => "Não informado"
  | Some "" => "Não informado"
  | Some s => s
  end.

(** A column selected from a group by a key it depends on ([Dono.nome]
    under [GROUP BY Dono.id]): its value on the group's rows. *)
Definition group_value {A} (f : A → string) (g : list A) : string :=
  match g with
  | [] => ""
  | r :: _ => f r
  end.

Section Queries.
Variable st : Store.

(** Query 1: Dono JOIN Propriedade ON dono_id JOIN Lote ON propriedade_id,
    GROUP BY Dono.id, ORDER BY SUM(Lote.quantidade) DESC. *)
Definition q1_join : list (Dono * Propriedade * Lote) :=
  d ← donos st;
  p ← filter (λ p, prop_dono_id p = dono_id d) (propriedades st);
  l ← filter (λ l, lote_propriedade_id l = prop_id p) (lotes st);
  [(d, p, l)].

Definition q1_sum (g : Z * list (Dono * Propriedade * Lote)) : option Z :=
  SQL.SUM ((λ r, lote_quantidade r.2) <$> g.2).

Definition q1 : list (string * Z) :=
  (λ g, (group_value (λ r, dono_nome r.1.1) g.2, SQL.COALESCE (q1_sum g) 0))
    <$> SQL.order_by_desc q1_sum (SQL.group_by (λ r, dono_id r.1.1) q1_join).

(** Query 2: Animal JOIN Lote ON animal_id, GROUP BY Animal.raca,
    ORDER BY SUM(Lote.quantidade) DESC. *)
Definition q2_join : list (Animal * Lote) :=
  a ← animais st;
  l ← filter (λ l, lote_animal_id l = animal_id a) (lotes st);
  [(a, l)].

Definition q2_sum (g : option string * list (Animal * Lote)) : option Z :=
  SQL.SUM ((λ r, lote_quantidade r.2) <$> g.2).

Definition q2_groups : list (option string * list (Animal * Lote)) :=
  SQL.order_by_desc q2_sum (SQL.group_by (λ r, animal_raca r.1) q2_join).

Definition q2 : list (option string * Z) :=
  (λ g, (g.1, SQL.COALESCE (q2_sum g) 0)) <$> q2_groups.

(** Query 3: Dono JOIN Propriedade ON dono_id, GROUP BY Dono.id,
    ORDER BY SUM(Propriedade.area_total_ha) DESC. *)
Definition q3_join : list (Dono * Propriedade) :=
  d ← donos st;
  p ← filter (λ p, prop_dono_id p = dono_id d) (propriedades st);
  [(d, p)].

Definition q3_sum (g : Z * list (Dono * Propriedade)) : option Z :=
  SQL.SUM ((λ r, prop_area_total_ha r.2) <$> g.2).

Definition q3 : list (string * Z) :=
  (λ g, (group_value (λ r, dono_nome r.1) g.2, SQL.COALESCE (q3_sum g) 0))
    <$> SQL.order_by_desc q3_sum (SQL.group_by (λ r, dono_id r.1) q3_join).

(** Query 4: Propriedade GROUP BY estado, ORDER BY COUNT(id) DESC. *)
Definition q4_count (g : string * list Propriedade) : Z :=
  SQL.COUNT (prop_id <$> g.2).

Definition q4_groups : list (string * list Propriedade) :=
  SQL.order_by_desc (λ g, Some (q4_count g))
    (SQL.group_by prop_estado (propriedades st)).

Definition q4 : list (string * Z) :=
  (λ g, (g.1, q4_count g)) <$> q4_groups.

(** The four lists of the response, as the comprehensions build them:
    the label and the number of each record. The hectares of the third
    are the exact decimal sum in hundredths, which [float] then takes to
    the nearest double. *)
Definition animais_por_proprietario : list (string * Z) := q1.

Definition animais_por_raca : list (string * Z) :=
  (λ r, (or_nao_informado r.1, r.2)) <$> q2.

Definition area_por_proprietario : list (string * Z) := q3.

Definition fazendas_por_estado : list (string * Z) :=
  (λ r, (or_nao_informado (Some r.1), r.2)) <$> q4.

End Queries.


(** ** Exceptions, the session and the responses

    A request handler sees the store through the ORM session. Besides the
    rows, the engine can fail an operation on its own account (connection
    lost, statement refused): [db_fault] says, for each operation of a
    request, whether it fails and with which message. Violations of the
    declared constraints are raised by [commit] itself. *)

Inductive DbOp :=
  | OpQ1 | OpQ2 | OpQ3 | OpQ4
  | OpCountDono | OpCountPropriedade | OpCountAnimal | OpCountLote
  | OpSumQuantidade | OpCountTipos | OpCountRacas | OpLotesRecentes
  | OpCommit.

Global Instance DbOp_eq_dec : EqDecision DbOp.
Proof. solve_decision. Defined.

Record Db := mkDb {
  db_store : Store;
  db_fault : DbOp → option string
}.

Inductive Exn :=
  | IntegrityError (msg : string)
  | OtherError (msg : string).

(** [str(e)] *)
Definition str (e : Exn) : string :=
  match e with
  | IntegrityError msg => msg
  | OtherError msg => msg
  end.

Inductive Exc (A : Type) :=
  | Return (a : A)
  | Raise (e : Exn).
Global Arguments Return {A} a.
Global Arguments Raise {A} e.

Global Instance Exc_ret : MRet Exc := λ A, Return.
Global Instance Exc_bind : MBind Exc := λ A B f m,
  match m with
  | Return a => f a
  | Raise e => Raise e
  end.

(** [try: body except Exception as e: handler] *)
Definition try_except {A} (body : Exc A) (handler : Exn → A) : A :=
  match body with
  | Return a => a
  | Raise e => handler e
  end.

(** Running a read query: the engine fails, or the rows come back. *)
Definition execute {A} (db : Db) (op : DbOp) (q : Store → A) : Exc A :=
  match db_fault db op with
  | Some msg => Raise (OtherError msg)
  | None => Return (q (db_store db))
  end.

(** The Flask session: its keys, and the flashed messages as
    (category, message) pairs in the order they were flashed. *)
Record Session := mkSession {
  session_keys : gmap string string;
  session_flashes : list (string * string)
}.

Definition flash (message category : string) (s : Session) : Session :=
  mkSession (session_keys s) (session_flashes s ++ [(category, message)]).

Record Request := mkRequest {
  req_form : gmap string string
}.

Inductive JVal :=
  | JInt (n : Z)
  | JStr (s : string)
  | JFloat (hundredths : Z).

Inductive JBody :=
  | JRows (rows : list (list (string * JVal)))
  | JMsg (msg : string).

Inductive TVal :=
  | TInt (n : Z)
  | TBool (b : bool)
  | TLotes (l : list Lote)
  | TAtividades (l : list (string * string * string)).

Inductive Response :=
  | Redirect (endpoint : string)
  | Render (template : string) (context : list (string * TVal))
  | Json (body : gmap string JBody) (status : Z).

(** A view function: it reads and may change the store and the session,
    and returns the response. *)
Definition View : Type := Db → Request → Session → Db * Session * Response.

(** The decorator [login_required]. *)
Definition login_required (f : View) : View := λ db req s,
  if decide (session_keys s !! "user" = None) then
    (db, flash "Faça login para acessar esta página." "warning" s,
     Redirect "login")
  else f db req s.

(** ** [bi_dashboard]: GET /api/bi/dashboard *)

Definition bi_dashboard_data (db : Db) : Exc (gmap string JBody) :=
  let data : gmap string JBody := ∅ in
  r1 ← execute db OpQ1 q1;
  let data :=
    <["animais_por_proprietario" :=
        JRows ((λ r, [("proprietario", JStr r.1); ("total_animais", JInt r.2)])
                 <$> r1)]> data in
  r2 ← execute db OpQ2 q2;
  let data :=
    <["animais_por_raca" :=
        JRows ((λ r, [("raca", JStr (or_nao_informado r.1)); ("total", JInt r.2)])
                 <$> r2)]> data in
  r3 ← execute db OpQ3 q3;
  let data :=
    <["area_por_proprietario" :=
        JRows ((λ r, [("proprietario", JStr r.1); ("total_ha", JFloat r.2)])
                 <$> r3)]> data in
  r4 ← execute db OpQ4 q4;
  let data :=
    <["fazendas_por_estado" :=
        JRows ((λ r, [("estado", JStr (or_nao_informado (Some r.1)));
                      ("total_fazendas", JInt r.2)])
                 <$> r4)]> data in
  mret data.

Definition bi_dashboard : View := λ db req s,
  (db, s,
   try_except (data ← bi_dashboard_data db; mret (Json data 200))
     (λ e, Json {["error" := JMsg (str e)]} 500)).

(** ** [bi_dashboard_page]: GET /bi/dashboard *)

Definition bi_dashboard_page : View :=
  login_required (λ db req s, (db, s, Render "bi.html" [("show_menu", TBool true)])).

(** ** [index]: GET /index *)

Record IndexVars := mkIndexVars {
  proprietarios_count : Z;
  propriedades_count : Z;
  propriedades_ativas : Z;
  animais_count : Z;
  tipos_animais : Z;
  lotes_count : Z;
  raca_animais : Z;
  lotes_ativos : Z;
  quantidade_total : Z;
  atividades_recentes : list (string * string * string);
  lotes_recentes : list Lote
}.

(** Python's [x or 0] on the scalar of an aggregate: [None] and [0] are
    the falsy values. *)
Definition or_0 (v : option Z) : Z :=
  match v with
  | None => 0
  | Some 0 => 0
  | Some n => n
  end.

(** Dates in calendar order, as a number. *)
Definition date_ord (d : Date) : Z :=
  (date_year d * 100 + date_month d) * 100 + date_day d.

Definition index_try (db : Db) : Exc IndexVars :=
  proprietarios_count ← execute db OpCountDono (λ st, SQL.COUNT (donos st));
  propriedades_count ←
    execute db OpCountPropriedade (λ st, SQL.COUNT (propriedades st));
  animais_count ← execute db OpCountAnimal (λ st, SQL.COUNT (animais st));
  lotes_count ← execute db OpCountLote (λ st, SQL.COUNT (lotes st));
  quantidade_total ←
    execute db OpSumQuantidade
      (λ st, or_0 (SQL.SUM (lote_quantidade <$> lotes st)));
  let propriedades_ativas := propriedades_count in
  tipos_animais ←
    execute db OpCountTipos
      (λ st, or_0 (Some (SQL.COUNT (remove_dups (animal_tipo <$> animais st)))));
  raca_animais ←
    execute db OpCountRacas
      (λ st, or_0 (Some (SQL.COUNT (remove_dups (omap animal_raca (animais st))))));
  let lotes_ativos := lotes_count in
  lotes ←
    execute db OpLotesRecentes
      (λ st, SQL.order_by_desc (λ l, date_ord <$> lote_data_registro l)
               (lotes st));
  let atividades_recentes :=
    [("propriedade", "Nova propriedade cadastrada", "há 2 horas");
     ("animal", "Novo tipo de animal registrado", "há 1 dia");
     ("lote", "Lote de animais atualizado", "há 3 dias")] in
  mret (mkIndexVars proprietarios_count propriedades_count propriedades_ativas
          animais_count tipos_animais lotes_count raca_animais lotes_ativos
          quantidade_total atividades_recentes lotes).

Definition index_render (v : IndexVars) : Response :=
  Render "index.html"
    [("proprietarios_count", TInt (proprietarios_count v));
     ("propriedades_count", TInt (propriedades_count v));
     ("propriedades_ativas", TInt (propriedades_ativas v));
     ("animais_count", TInt (animais_count v));
     ("tipos_animais", TInt (tipos_animais v));
     ("lotes_count", TInt (lotes_count v));
     ("raca_animais", TInt (raca_animais v));
     ("lotes_ativos", TInt (lotes_ativos v));
     ("quantidade_count", TInt (quantidade_total v));
     ("atividades_recentes", TAtividades (atividades_recentes v));
     ("lotes", TLotes (lotes_recentes v));
     ("show_menu", TBool true)].

Definition index : View := login_required (λ db req s,
  let '(s, vars) :=
    try_except (vars ← index_try db; mret (s, vars))
      (λ e,
         (flash ("Erro ao carregar dados do dashboard: " +:+ str e) "danger" s,
          mkIndexVars 0 0 0 0 0 0 0 0 0 [] [])) in
  (db, s, index_render vars)).

(** ** Creating rows

    [db.session.add(novo); db.session.commit()]: the engine may fail the
    commit; otherwise the constraints of the table are checked (the unique
    key of [Dono.cpf_cnpj], the foreign keys of [Lote]) and the row is
    stored under the next [id]. On an exception the handlers call
    [rollback], which leaves the store as it was. *)

Definition next_id (ids : list Z) : Z := 1 + foldr Z.max 0 ids.

Definition set_donos (db : Db) (l : list Dono) : Db :=
  mkDb (mkStore l (propriedades (db_store db)) (animais (db_store db))
          (lotes (db_store db)))
       (db_fault db).

Definition set_lotes (db : Db) (l : list Lote) : Db :=
  mkDb (mkStore (donos (db_store db)) (propriedades (db_store db))
          (animais (db_store db)) l)
       (db_fault db).

Definition commit_dono (db : Db) (nome cpf_cnpj telefone email : string)
  : Exc Db :=
  match db_fault db OpCommit with
  | Some msg => Raise (OtherError msg)
  | None =>
      if decide (cpf_cnpj ∈ dono_cpf_cnpj <$> donos (db_store db)) then
        Raise (IntegrityError "Duplicate entry for key cpf_cnpj")
      else
        Return
          (set_donos db
             (donos (db_store db)
                ++ [mkDono (next_id (dono_id <$> donos (db_store db)))
                      nome cpf_cnpj (Some email) (Some telefone)]))
  end.

Definition commit_lote (db : Db) (p_id a_id quantidade : Z)
    (data_registro : option Date) : Exc Db :=
  match db_fault db OpCommit with
  | Some msg => Raise (OtherError msg)
  | None =>
      if decide (p_id ∈ prop_id <$> propriedades (db_store db)
                 ∧ a_id ∈ animal_id <$> animais (db_store db))
      then
        Return
          (set_lotes db
             (lotes (db_store db)
                ++ [mkLote (next_id (lote_id <$> lotes (db_store db)))
                      p_id a_id quantidade data_registro]))
      else Raise (IntegrityError "a foreign key constraint fails")
  end.

(** The functions of the Python library the handlers call on form fields:
    [str.strip], [int] and [datetime.strptime(_, '%Y-%m-%d').date()]. The
    last two raise on input they do not accept. *)
Class PyLib := {
  py_strip : string → string;
  py_int : string → Exc Z;
  py_strptime_Ymd : string → Exc Date
}.

(** Truth value of an optional form field: [None] and [''] are falsy. *)
Definition truthy (o : option string) : bool :=
  match o with
  | None => false
  | Some "" => false
  | Some _ => true
  end.

(** ** [cadastrarProprietario]: POST /owners/cadastrar *)

Definition cadastrarProprietario `{PyLib} : View := login_required (λ db req s,
  let nome := py_strip (default "" (req_form req !! "nome")) in
  let cpf_cnpj := py_strip (default "" (req_form req !! "cpf_cnpj")) in
  let telefone := py_strip (default "" (req_form req !! "telefone")) in
  let email := py_strip (default "" (req_form req !! "email")) in
  if decide (nome = "" ∨ cpf_cnpj = "") then
    (db, flash "Campo nome e cpf/cnpj são obrigatórios" "warning" s,
     Redirect "owners")
  else
    let '(db, s) :=
      match commit_dono db nome cpf_cnpj telefone email with
      | Return db' => (db', flash "Proprietário cadastrado com sucesso." "success" s)
      | Raise (IntegrityError _) => (db, flash "CPF/CNPJ já cadastrado." "warning" s)
      | Raise e =>
          (db, flash ("Erro ao cadastrar proprietário: " +:+ str e) "danger" s)
      end in
    (db, s, Redirect "owners")).

(** ** [lotes], the POST branch: POST /lotes *)

Definition lotes_post `{PyLib} : View := login_required (λ db req s,
  let propriedade_id := req_form req !! "propriedade_id" in
  let animal_id := req_form req !! "animal_id" in
  let quantidade := req_form req !! "quantidade" in
  let data_registro_str := req_form req !! "data_registro" in
  if negb (truthy propriedade_id) || negb (truthy animal_id)
     || negb (truthy quantidade) then
    (db, flash "Informe propriedade, animal e quantidade." "warning" s,
     Redirect "lotes")
  else
    let '(db, s) :=
      try_except
        (qnt ← py_int (default "" quantidade);
         let data_registro_val :=
           if truthy data_registro_str then
             try_except
               (d ← py_strptime_Ymd (default "" data_registro_str); mret (Some d))
               (λ _, None)
           else None in
         pid ← py_int (default "" propriedade_id);
         aid ← py_int (default "" animal_id);
         db' ← commit_lote db pid aid qnt data_registro_val;
         mret (db', flash "Lote registrado com sucesso." "success" s))
        (λ e, (db, flash ("Erro ao registrar lote: " +:+ str e) "danger" s)) in
    (db, s, Redirect "lotes")).

(** ** A reference instance of the library functions, on ASCII input *)

Fixpoint lstrip (s : string) : string :=
  match s with
  | String c s' => if Ascii.is_space c then lstrip s' else s
  | EmptyString => EmptyString
  end.

Definition ascii_strip (s : string) : string :=
  String.rev (lstrip (String.rev (lstrip s))).

Fixpoint digits_value (acc : Z) (s : string) : option Z :=
  match s with
  | EmptyString => Some acc
  | String c s' =>
      match Ascii.is_nat c with
      | Some d => digits_value (10 * acc + Z.of_nat d) s'
      | None => None
      end
  end.

Definition unsigned_int (s : string) : option Z :=
  match s with
  | EmptyString => None
  | _ => digits_value 0 s
  end.

(** The digits of an [int()] literal: single underscores may separate
    digits. *)
Fixpoint int_digits (acc : Z) (after_digit : bool) (s : string) : option Z :=
  match s with
  | EmptyString => if after_digit then Some acc else None
  | String c s' =>
      match Ascii.is_nat c with
      | Some d => int_digits (10 * acc + Z.of_nat d) true s'
      | None =>
          if decide (c = "_"%char) then
            if after_digit then int_digits acc false s' else None
          else None
      end
  end.

(** [int(s)]: surrounding whitespace, an optional sign, the digits. The
    message of the [ValueError] quotes the text as given. *)
Definition decimal_int (s : string) : Exc Z :=
  let r :=
    match ascii_strip s with
    | String "-"%char s' => Z.opp <$> int_digits 0 false s'
    | String "+"%char s' => int_digits 0 false s'
    | s' => int_digits 0 false s'
    end in
  match r with
  | Some n => Return n
  | None =>
      Raise (OtherError
               ("invalid literal for int() with base 10: '" +:+ s +:+ "'"))
  end.

(** The text before the first [sep], and the text after it. *)
Fixpoint split_at (sep : ascii) (s : string) : string * option string :=
  match s with
  | EmptyString => (EmptyString, None)
  | String c s' =>
      if decide (c = sep) then (EmptyString, Some s')
      else let '(a, b) := split_at sep s' in (String c a, b)
  end.

Definition is_leap (y : Z) : bool :=
  ((y mod 4 =? 0) && negb (y mod 100 =? 0)) || (y mod 400 =? 0).

Definition days_in_month (y m : Z) : Z :=
  if m =? 2 then (if is_leap y then 29 else 28)
  else if (m =? 4) || (m =? 6) || (m =? 9) || (m =? 11) then 30
  else 31.

Definition iso_date (s : string) : Exc Date :=
  let bad := Raise (OtherError "time data does not match format %Y-%m-%d") in
  match split_at "-"%char s with
  | (ys, Some rest) =>
      match split_at "-"%char rest with
      | (ms, Some ds) =>
          match unsigned_int ys, unsigned_int ms, unsigned_int ds with
          | Some y, Some m, Some d =>
              if (String.length ys =? 4)%nat
                 && (String.length ms <=? 2)%nat && (String.length ds <=? 2)%nat
                 && (1 <=? y) && (1 <=? m) && (m <=? 12)
                 && (1 <=? d) && (d <=? days_in_month y m)
              then Return (mkDate y m d)
              else bad
          | _, _, _ => bad
          end
      | _ => bad
      end
  | _ => bad
  end.

Definition ascii_pylib : PyLib :=
  {| py_strip := ascii_strip; py_int := decimal_int; py_strptime_Ymd := iso_date |}.

(** ** What the reports are meant to show

    The quantities the specification names, written from its words: the
    Properties of an Owner, the Batches reachable through them, and the
    totals over them. *)

Definition spec_owner_properties (st : Store) (d : Dono) : list Propriedade :=
  filter (λ p, prop_dono_id p = dono_id d) (propriedades st).

Definition spec_property_batches (st : Store) (p : Propriedade) : list Lote :=
  filter (λ l, lote_propriedade_id l = prop_id p) (lotes st).

Definition spec_owner_batches (st : Store) (d : Dono) : list Lote :=
  spec_owner_properties st d ≫= spec_property_batches st.

Definition spec_total_animals (st : Store) (d : Dono) : Z :=
  SQL.sum_list (lote_quantidade <$> spec_owner_batches st d).

Definition spec_total_hectares (st : Store) (d : Dono) : Z :=
  SQL.sum_list (prop_area_total_ha <$> spec_owner_properties st d).

(** The Batches whose AnimalKind reference names a stored AnimalKind. *)
Definition spec_batches_with_kind (st : Store) : list Lote :=
  filter (λ l, lote_animal_id l ∈ animal_id <$> animais st) (lotes st).

(** A breed that is null or the empty string. *)
Definition breed_absent (v : option string) : Prop := v = None ∨ v = Some "".

Global Instance breed_absent_dec (v : option string) : Decision (breed_absent v).
Proof. unfold breed_absent. apply _. Defined.

(** The rows of query 2 whose breed is absent are one and the same row. *)
Definition one_absent_breed_group (st : Store) : Prop :=
  ∀ r1 r2, r1 ∈ q2 st → r2 ∈ q2 st →
    breed_absent r1.1 → breed_absent r2.1 → r1 = r2.

(** Descending order of the number a record carries. *)
Definition by_total_desc : relation (string * Z) := λ r1 r2, r2.2 ≤ r1.2.

(** The scenario of the specification: Ana owns a Property of 10.00 ha
    without Batches and one of 5.50 ha with one Batch of 20 animals. *)
Definition ana : Dono := mkDono 1 "Ana" "111.111.111-11" None None.

Definition ana_properties : list Propriedade :=
  [mkPropriedade 1 "Sitio A" "Campinas" "SP" 1000 1;
   mkPropriedade 2 "Sitio B" "Campinas" "SP" 550 1].

Definition ana_store : Store :=
  mkStore [ana] ana_properties [mkAnimal 1 "Bovino" (Some "Nelore")]
    [mkLote 1 2 1 20 None].

(** An AnimalKind without a breed, stored as NULL, and one with a breed. *)
Definition null_breed_store : Store :=
  mkStore [ana] ana_properties
    [mkAnimal 1 "Bovino" None; mkAnimal 2 "Bovino" (Some "Nelore")]
    [mkLote 1 2 1 20 None; mkLote 2 2 2 7 None; mkLote 3 1 1 5 None].

(** Two AnimalKinds without a breed, one stored as NULL and one as the
    empty string, each with a Batch. *)
Definition two_absent_breeds_store : Store :=
  mkStore [ana] ana_properties
    [mkAnimal 1 "Bovino" None; mkAnimal 2 "Equino" (Some "")]
    [mkLote 1 2 1 20 None; mkLote 2 2 2 7 None].

(** The operations and the keys of the BI bundle, the operations of the
    dashboard statistics. *)
Definition bi_ops : list DbOp := [OpQ1; OpQ2; OpQ3; OpQ4].

Definition bi_keys : list string :=
  ["animais_por_proprietario"; "animais_por_raca"; "area_por_proprietario";
   "fazendas_por_estado"].

Definition index_ops : list DbOp :=
  [OpCountDono; OpCountPropriedade; OpCountAnimal; OpCountLote;
   OpSumQuantidade; OpCountTipos; OpCountRacas; OpLotesRecentes].

(** The four named arrays of the bundle, from the four reports. *)
Definition json_pairs (k1 k2 : string) (num : Z → JVal)
    (rows : list (string * Z)) : JBody :=
  JRows ((λ r, [(k1, JStr r.1); (k2, num r.2)]) <$> rows).

Definition bi_bundle (st : Store) : gmap string JBody :=
  <["fazendas_por_estado" :=
      json_pairs "estado" "total_fazendas" JInt (fazendas_por_estado st)]>
  (<["area_por_proprietario" :=
      json_pairs "proprietario" "total_ha" JFloat (area_por_proprietario st)]>
  (<["animais_por_raca" :=
      json_pairs "raca" "total" JInt (animais_por_raca st)]>
  (<["animais_por_proprietario" :=
      json_pairs "proprietario" "total_animais" JInt
        (animais_por_proprietario st)]> ∅))).

(** The fallback of the dashboard: every number zero, both lists empty. *)
Definition index_zero : IndexVars := mkIndexVars 0 0 0 0 0 0 0 0 0 [] [].

(** A creation request for a Batch whose fields other than the date are
    in order: the three required fields are filled in and are integers,
    and the Property and the AnimalKind they name are stored. *)
Definition batch_fields_valid `{PyLib} (db : Db) (req : Request)
    (p a q : Z) : Prop :=
  ∃ ps ks qs,
    req_form req !! "propriedade_id" = Some ps ∧ ps ≠ "" ∧ py_int ps = Return p
    ∧ req_form req !! "animal_id" = Some ks ∧ ks ≠ "" ∧ py_int ks = Return a
    ∧ req_form req !! "quantidade" = Some qs ∧ qs ≠ "" ∧ py_int qs = Return q
    ∧ p ∈ prop_id <$> propriedades (db_store db)
    ∧ a ∈ animal_id <$> animais (db_store db).

(** Example inputs: a store that answers, a store whose engine fails one
    operation, a logged-in session, and two forms. *)
Definition healthy_db : Db := mkDb ana_store (λ _, None).

Definition faulty_db (op : DbOp) (msg : string) : Db :=
  mkDb ana_store (λ o, if decide (o = op) then Some msg else None).

Definition bob_session : Session := mkSession {["user" := "bob"]} [].

Definition anonymous_session : Session := mkSession ∅ [].


Definition bad_date_batch_form : Request :=
  mkRequest (list_to_map [("propriedade_id", "1"); ("animal_id", "1");
                          ("quantidade", "5"); ("data_registro", "31/12/2024")]).

(** The rows that the joins of queries 1 and 3 produce for one owner. *)
Definition q1_rows_of (st : Store) (d : Dono) : list (Dono * Propriedade * Lote) :=
  p ← filter (λ p, prop_dono_id p = dono_id d) (propriedades st);
  l ← filter (λ l, lote_propriedade_id l = prop_id p) (lotes st);
  [(d, p, l)].

Definition q3_rows_of (st : Store) (d : Dono) : list (Dono * Propriedade) :=
  p ← filter (λ p, prop_dono_id p = dono_id d) (propriedades st);
  [(d, p)].

(** ** The other creation handlers *)

Definition set_propriedades (db : Db) (l : list Propriedade) : Db :=
  mkDb (mkStore (donos (db_store db)) l (animais (db_store db))
          (lotes (db_store db)))
       (db_fault db).

Definition set_animais (db : Db) (l : list Animal) : Db :=
  mkDb (mkStore (donos (db_store db)) (propriedades (db_store db)) l
          (lotes (db_store db)))
       (db_fault db).

(** The engine's conversion of the text sent for a [Numeric(10, 2)]
    column to the stored decimal (in hundredths); it may refuse the text. *)
Class SqlNumeric := {
  to_numeric_10_2 : string → Exc Z
}.

Definition commit_propriedade `{SqlNumeric} (db : Db)
    (nome municipio estado area_total : string) (d_id : Z) : Exc Db :=
  match db_fault db OpCommit with
  | Some msg => Raise (OtherError msg)
  | None =>
      area ← to_numeric_10_2 area_total;
      if decide (d_id ∈ dono_id <$> donos (db_store db)) then
        Return
          (set_propriedades db
             (propriedades (db_store db)
                ++ [mkPropriedade (next_id (prop_id <$> propriedades (db_store db)))
                      nome municipio estado area d_id]))
      else Raise (IntegrityError "a foreign key constraint fails")
  end.

Definition commit_animal (db : Db) (tipo : string) (raca : option string)
  : Exc Db :=
  match db_fault db OpCommit with
  | Some msg => Raise (OtherError msg)
  | None =>
      Return
        (set_animais db
           (animais (db_store db)
              ++ [mkAnimal (next_id (animal_id <$> animais (db_store db)))
                    tipo raca]))
  end.

(** [propriedades], the POST branch: POST /propriedades *)
Definition propriedades_post `{PyLib, SqlNumeric} : View :=
  login_required (λ db req s,
  let nome := py_strip (default "" (req_form req !! "nome")) in
  let municipio := py_strip (default "" (req_form req !! "municipio")) in
  let estado := py_strip (default "" (req_form req !! "estado")) in
  let area_total := req_form req !! "area_total" in
  let dono_id := req_form req !! "dono_id" in
  let '(db, s) :=
    if bool_decide (nome = "" ∨ municipio = "" ∨ estado = "")
       || negb (truthy area_total) || negb (truthy dono_id) then
      (db, flash "Preencha todos os campos." "warning" s)
    else
      try_except
        (d ← py_int (default "" dono_id);
         db' ← commit_propriedade db nome municipio estado
                 (default "" area_total) d;
         mret (db', flash "Propriedade cadastrada com sucesso." "success" s))
        (λ e, (db, flash ("Erro ao cadastrar propriedade: " +:+ str e) "danger" s))
  in
  (db, s, Redirect "propriedades")).

(** [animais], the POST branch: POST /animais *)
Definition animais_post `{PyLib} : View := login_required (λ db req s,
  let tipo := py_strip (default "" (req_form req !! "tipo")) in
  let raca := py_strip (default "" (req_form req !! "raca")) in
  let '(db, s) :=
    if decide (tipo = "") then
      (db, flash "Informe o tipo do animal." "warning" s)
    else
      match commit_animal db tipo (if decide (raca = "") then None else Some raca)
      with
      | Return db' => (db', flash "Animal cadastrado com sucesso." "success" s)
      | Raise e =>
          (db, flash ("Erro ao cadastrar animal: " +:+ str e) "danger" s)
      end
  in
  (db, s, Redirect "animais")).

(** ** Users: [login], [register], [logout] and the root route *)

Record Usuario := mkUsuario {
  usuario_id : Z;
  usuario_username : string;
  usuario_password : string
}.

Inductive AuthOp := OpFindUsuario | OpCommitUsuario.

(** The [usuario] table, with the failures of the engine on the two
    operations the user handlers run. *)
Record AuthDb := mkAuthDb {
  auth_usuarios : list Usuario;
  auth_fault : AuthOp → option string
}.

(** [Usuario.query.filter_by(username=username).first()] *)
Definition find_usuario (adb : AuthDb) (username : string)
  : Exc (option Usuario) :=
  match auth_fault adb OpFindUsuario with
  | Some msg => Raise (OtherError msg)
  | None =>
      Return (head (filter (λ u, usuario_username u = username)
                      (auth_usuarios adb)))
  end.

Definition commit_usuario (adb : AuthDb) (username password : string)
  : Exc AuthDb :=
  match auth_fault adb OpCommitUsuario with
  | Some msg => Raise (OtherError msg)
  | None =>
      if decide (username ∈ usuario_username <$> auth_usuarios adb) then
        Raise (IntegrityError "Duplicate entry for key username")
      else
        Return
          (mkAuthDb
             (auth_usuarios adb
                ++ [mkUsuario (next_id (usuario_id <$> auth_usuarios adb))
                      username password])
             (auth_fault adb))
  end.

(** [session['user'] = username] *)
Definition set_user (username : string) (s : Session) : Session :=
  mkSession (<["user" := username]> (session_keys s)) (session_flashes s).

(** [login], the POST branch: POST /login *)
Definition login_post `{PyLib} (adb : AuthDb) (req : Request) (s : Session)
  : Session * Response :=
  let username := py_strip (default "" (req_form req !! "username")) in
  let password := default "" (req_form req !! "password") in
  if decide (username = "" ∨ password = "") then
    (flash "Informe usuário e senha." "warning" s, Redirect "login")
  else
    try_except
      (user ← find_usuario adb username;
       match user with
       | Some u =>
           if decide (usuario_password u = password) then
             mret (flash "Login efetuado com sucesso." "success"
                     (set_user username s),
                   Redirect "index")
           else
             mret (flash "Usuário ou senha inválidos." "danger" s,
                   Redirect "login")
       | None =>
           mret (flash "Usuário ou senha inválidos." "danger" s,
                 Redirect "login")
       end)
      (λ e, (flash ("Erro ao validar login: " +:+ str e) "danger" s,
             Redirect "login")).

(** [register], the POST branch: POST /register *)
Definition register_post `{PyLib} (adb : AuthDb) (req : Request) (s : Session)
  : AuthDb * Session * Response :=
  let username := py_strip (default "" (req_form req !! "username")) in
  let password := default "" (req_form req !! "password") in
  if decide (username = "" ∨ password = "") then
    (adb, flash "Informe usuário e senha para criar a conta." "warning" s,
     Redirect "register")
  else
    try_except
      (exists_ ← find_usuario adb username;
       match exists_ with
       | Some _ =>
           mret (adb, flash "Usuário já existe. Escolha outro." "warning" s,
                 Redirect "register")
       | None =>
           adb' ← commit_usuario adb username password;
           mret (adb',
                 flash "Conta criada com sucesso. Faça login para continuar."
                   "success" s,
                 Redirect "login")
       end)
      (λ e, (adb, flash ("Erro ao criar usuário: " +:+ str e) "danger" s,
             Redirect "register")).

(** [logout]: GET /logout *)
Definition logout (s : Session) : Session * Response :=
  (flash "Você saiu da aplicação." "info"
     (mkSession (delete "user" (session_keys s)) (session_flashes s)),
   Redirect "login").

(** [main_route]: GET / *)
Definition main_route (s : Session) : Response :=
  if decide (session_keys s !! "user" = None) then Redirect "login"
  else Redirect "index".

(** ** What the schema declares

    The primary keys and the unique key hold distinct values, and every
    foreign key names a stored row. *)
Definition store_wf (st : Store) : Prop :=
  NoDup (dono_id <$> donos st)
  ∧ NoDup (dono_cpf_cnpj <$> donos st)
  ∧ NoDup (prop_id <$> propriedades st)
  ∧ NoDup (animal_id <$> animais st)
  ∧ NoDup (lote_id <$> lotes st)
  ∧ Forall (λ p, prop_dono_id p ∈ dono_id <$> donos st) (propriedades st)
  ∧ Forall (λ l, lote_propriedade_id l ∈ prop_id <$> propriedades st
                 ∧ lote_animal_id l ∈ animal_id <$> animais st) (lotes st).

Global Instance store_wf_dec (st : Store) : Decision (store_wf st).
Proof. unfold store_wf. apply _. Defined.

(** Usernames and user ids are unique. *)
Definition usuarios_wf (adb : AuthDb) : Prop :=
  NoDup (usuario_id <$> auth_usuarios adb)
  ∧ NoDup (usuario_username <$> auth_usuarios adb).

Global Instance usuarios_wf_dec (adb : AuthDb) : Decision (usuarios_wf adb).
Proof. unfold usuarios_wf. apply _. Defined.

(** A reference conversion of decimal text with at most two fractional
    digits. *)
Definition centi_of_text (s : string) : Exc Z :=
  let bad := Raise (OtherError "Incorrect decimal value") in
  match split_at "."%char s with
  | (ip, None) =>
      match unsigned_int ip with
      | Some n => Return (100 * n)
      | None => bad
      end
  | (ip, Some fp) =>
      match unsigned_int ip, unsigned_int fp with
      | Some n, Some f =>
          if (String.length fp =? 1)%nat then Return (100 * n + 10 * f)
          else if (String.length fp =? 2)%nat then Return (100 * n + f)
          else bad
      | _, _ => bad
      end
  end.

Definition centi_numeric : SqlNumeric := {| to_numeric_10_2 := centi_of_text |}.

(** More example inputs. *)
Definition new_owner_form : Request :=
  mkRequest (list_to_map [("nome", " Bia "); ("cpf_cnpj", "222.222.222-22");
                          ("telefone", "19 5555"); ("email", "")]).


Definition bad_quantity_batch_form : Request :=
  mkRequest (list_to_map [("propriedade_id", "1"); ("animal_id", "1");
                          ("quantidade", "five")]).

Definition dangling_batch_form : Request :=
  mkRequest (list_to_map [("propriedade_id", "9"); ("animal_id", "1");
                          ("quantidade", "5")]).

Definition new_property_form : Request :=
  mkRequest (list_to_map [("nome", "Sitio C"); ("municipio", "Itu");
                          ("estado", "SP"); ("area_total", "12.5");
                          ("dono_id", "1")]).

Definition new_animal_form : Request :=
  mkRequest (list_to_map [("tipo", "Equino"); ("raca", "  ")]).

Definition carol : Usuario := mkUsuario 1 "carol" "s3cret".

Definition one_user_db : AuthDb := mkAuthDb [carol] (λ _, None).

Definition carol_form : Request :=
  mkRequest (list_to_map [("username", " carol "); ("password", "s3cret")]).

Definition dave_form : Request :=
  mkRequest (list_to_map [("username", "dave"); ("password", "pw")]).

(** * Properties *)

(** ** The SQL primitives *)

Module SQLFacts.
Import SQL.

Lemma sum_list_cons x l : sum_list (x :: l) = x + sum_list l.
Proof. done. Qed.

Lemma sum_list_app l1 l2 : sum_list (l1 ++ l2) = sum_list l1 + sum_list l2.
Proof.
  induction l1 as [|x l1 IH]; [done|].
  rewrite <-app_comm_cons, !sum_list_cons, IH. lia.
Qed.

Lemma sum_list_Permutation l1 l2 : l1 ≡ₚ l2 → sum_list l1 = sum_list l2.
Proof. induction 1; rewrite ?sum_list_cons; lia. Qed.

Lemma sum_list_bind {A} (f : A → list Z) (l : list A) :
  sum_list (l ≫= f) = sum_list ((λ x, sum_list (f x)) <$> l).
Proof.
  induction l as [|x l IH]; [done|].
  rewrite bind_cons, sum_list_app, IH. done.
Qed.

Lemma COUNT_sum {A} (l : list A) : COUNT l = sum_list ((λ _, 1) <$> l).
Proof.
  unfold COUNT. induction l as [|x l IH]; [done|].
  rewrite fmap_cons, sum_list_cons, <-IH. cbn [length]. lia.
Qed.

Lemma SUM_nonempty (l : list Z) : l ≠ [] → SUM l = Some (sum_list l).
Proof. by destruct l. Qed.

Lemma filter_all {A} (P : A → Prop) `{∀ x, Decision (P x)} (l : list A) :
  (∀ x, x ∈ l → P x) → filter P l = l.
Proof.
  induction l as [|x l IH]; intros HP; [done|].
  rewrite filter_cons_True by (apply HP; left).
  f_equal. apply IH. intros y Hy. apply HP. by right.
Qed.

Lemma filter_none {A} (P : A → Prop) `{∀ x, Decision (P x)} (l : list A) :
  (∀ x, x ∈ l → ¬ P x) → filter P l = [].
Proof.
  induction l as [|x l IH]; intros HP; [done|].
  rewrite filter_cons_False by (apply HP; left).
  apply IH. intros y Hy. apply HP. by right.
Qed.

(** A column whose values are pairwise distinct identifies its row. *)
Lemma NoDup_fmap_inj_on {A K} (key : A → K) (l : list A) x y :
  NoDup (key <$> l) → x ∈ l → y ∈ l → key x = key y → x = y.
Proof.
  induction l as [|z l IH]; intros Hnd Hx Hy Heq.
  { by apply elem_of_nil in Hx. }
  rewrite fmap_cons in Hnd. apply NoDup_cons in Hnd as [Hz Hnd].
  apply elem_of_cons in Hx as [->|Hx]; apply elem_of_cons in Hy as [->|Hy];
    [done| | |by apply IH].
  - exfalso. apply Hz. rewrite Heq. by apply list_elem_of_fmap_2.
  - exfalso. apply Hz. rewrite <-Heq. by apply list_elem_of_fmap_2.
Qed.

Section group_by.
Context {A K : Type} `{EqDecision K} (key : A → K).
Implicit Types (rows : list A) (k : K).

Lemma elem_of_group_by rows k g :
  (k, g) ∈ group_by key rows ↔
  k ∈ key <$> rows ∧ g = filter (λ r, key r = k) rows.
Proof.
  unfold group_by. rewrite list_elem_of_fmap. split.
  - intros (k' & [= -> ->] & Hk). by rewrite elem_of_remove_dups in Hk.
  - intros [Hk ->]. exists k. by rewrite elem_of_remove_dups.
Qed.

Lemma group_by_keys rows :
  (group_by key rows).*1 = remove_dups (key <$> rows).
Proof.
  unfold group_by. rewrite <-list_fmap_compose.
  rewrite <-(list_fmap_id (remove_dups _)) at 2. done.
Qed.

Lemma group_by_NoDup rows : NoDup (group_by key rows).*1.
Proof. rewrite group_by_keys. apply NoDup_remove_dups. Qed.

Lemma group_by_nonempty rows k g : (k, g) ∈ group_by key rows → g ≠ [].
Proof.
  rewrite elem_of_group_by, list_elem_of_fmap.
  intros [(r & -> & Hr) ->] Hnil.
  by eapply (filter_nil_not_elem_of _ _ r) in Hnil.
Qed.

(** Two groups with the same key are the same group. *)
Lemma group_by_functional rows k g1 g2 :
  (k, g1) ∈ group_by key rows → (k, g2) ∈ group_by key rows → g1 = g2.
Proof. rewrite !elem_of_group_by. by intros [_ ->] [_ ->]. Qed.

(** Summing a column group by group over distinct keys visits each row
    whose key is listed once. *)
Lemma sum_by_keys (f : A → Z) rows (ks : list K) :
  NoDup ks →
  sum_list ((λ k, sum_list (f <$> filter (λ r, key r = k) rows)) <$> ks)
  = sum_list (f <$> filter (λ r, key r ∈ ks) rows).
Proof.
  induction 1 as [|k ks Hk _ IH].
  - induction rows as [|r rows IHr]; [done|].
    rewrite filter_cons_False; [done | apply not_elem_of_nil].
  - rewrite fmap_cons, sum_list_cons, IH. clear IH.
    induction rows as [|r rows IHr]; [done|].
    rewrite !filter_cons.
    pose proof (elem_of_cons ks (key r) k) as Hcons.
    destruct (decide (key r = k)); destruct (decide (key r ∈ ks));
      destruct (decide (key r ∈ k :: ks));
      rewrite ?fmap_cons, ?sum_list_cons; try lia; exfalso; try subst k; tauto.
Qed.

Lemma group_by_sum (f : A → Z) rows :
  sum_list ((λ g, sum_list (f <$> g.2)) <$> group_by key rows)
  = sum_list (f <$> rows).
Proof.
  unfold group_by. rewrite <-list_fmap_compose.
  etrans; [apply (sum_by_keys f rows), NoDup_remove_dups|].
  f_equal. f_equal. apply filter_all.
  intros r Hr. rewrite elem_of_remove_dups. by apply list_elem_of_fmap_2.
Qed.

End group_by.

(** Grouping a join by the key of its left table: when that key is
    unique, the groups are the left rows that have a match, each with its
    own matches. *)
Section group_by_join.
Context {A B K : Type} `{EqDecision K, EqDecision B}.
Context (key : A → K) (kb : B → K) (block : A → list B).

Lemma filter_join_block (xs : list A) (x : A) :
  NoDup (key <$> xs) →
  (∀ y b, y ∈ xs → b ∈ block y → kb b = key y) →
  x ∈ xs →
  filter (λ b, kb b = key x) (xs ≫= block) = block x.
Proof.
  induction xs as [|y ys IH]; intros Hnd Hkb Hx.
  { by apply elem_of_nil in Hx. }
  rewrite fmap_cons in Hnd. apply NoDup_cons in Hnd as [Hy Hnd].
  rewrite bind_cons, filter_app.
  apply elem_of_cons in Hx as [->|Hx].
  - assert (filter (λ b, kb b = key y) (block y) = block y) as ->.
    { apply filter_all. intros b Hb. apply Hkb; [left | done]. }
    assert (filter (λ b, kb b = key y) (ys ≫= block) = []) as ->.
    { apply filter_none.
      intros b (z & Hb & Hz)%list_elem_of_bind Heq.
      apply Hy. rewrite <-Heq, (Hkb z b) by (done || by right).
      by apply list_elem_of_fmap_2. }
    by rewrite app_nil_r.
  - assert (filter (λ b, kb b = key x) (block y) = []) as ->.
    { apply filter_none. intros b Hb Heq. apply Hy.
      rewrite <-(Hkb y b), Heq by (done || left).
      by apply list_elem_of_fmap_2. }
    apply IH; [done| |done].
    intros z b Hz Hb. apply Hkb; [by right | done].
Qed.

Lemma group_by_join (xs : list A) :
  NoDup (key <$> xs) →
  (∀ y b, y ∈ xs → b ∈ block y → kb b = key y) →
  group_by kb (xs ≫= block)
  ≡ₚ (λ x, (key x, block x)) <$> filter (λ x, block x ≠ []) xs.
Proof.
  intros Hnd Hkb. unfold group_by.
  trans ((λ k, (k, filter (λ b, kb b = k) (xs ≫= block)))
           <$> (key <$> filter (λ x, block x ≠ []) xs)).
  - apply fmap_Permutation, NoDup_Permutation.
    + apply NoDup_remove_dups.
    + apply NoDup_fmap_2_strong; [|by apply NoDup_filter, (NoDup_fmap_1 key)].
      intros x y [_ Hx]%list_elem_of_filter [_ Hy]%list_elem_of_filter Heq.
      by apply (NoDup_fmap_inj_on key xs).
    + intros k. rewrite elem_of_remove_dups, !list_elem_of_fmap. split.
      * intros (b & -> & (x & Hb & Hx)%list_elem_of_bind).
        exists x. split; [by apply Hkb|].
        apply list_elem_of_filter. split; [|done].
        intros Hnil. rewrite Hnil in Hb. by apply elem_of_nil in Hb.
      * intros (x & -> & [Hne Hx]%list_elem_of_filter).
        destruct (block x) as [|b bs] eqn:Hbl; [done|].
        exists b. assert (b ∈ block x) by (rewrite Hbl; left).
        split; [symmetry; by apply Hkb|].
        apply list_elem_of_bind. eauto.
  - rewrite <-list_fmap_compose. apply reflexive_eq, Forall_fmap_ext.
    apply Forall_forall. intros x [_ Hx]%list_elem_of_filter. simpl.
    by rewrite filter_join_block.
Qed.

End group_by_join.

(** [ORDER BY ... DESC] rearranges the rows and leaves them in descending
    order of the key. *)
Section order_by.
Context {A : Type} (key : A → option Z).

Global Instance desc_total : Total (desc key).
Proof.
  intros x y. unfold desc, null_le.
  destruct (key x), (key y); simpl; auto. lia.
Qed.

Global Instance desc_trans : Transitive (desc key).
Proof.
  intros x y z. unfold desc, null_le.
  destruct (key x), (key y), (key z); simpl; auto; try done. lia.
Qed.

Lemma order_by_desc_Permutation rows : order_by_desc key rows ≡ₚ rows.
Proof. apply merge_sort_Permutation. Qed.

Lemma order_by_desc_Sorted rows : Sorted (desc key) (order_by_desc key rows).
Proof. apply Sorted_merge_sort, _. Qed.

Lemma elem_of_order_by_desc rows r : r ∈ order_by_desc key rows ↔ r ∈ rows.
Proof. by rewrite order_by_desc_Permutation. Qed.

End order_by.

(** Selecting columns from sorted rows keeps the order, when the relation
    on the rows gives the relation on the selected values for the rows
    that occur. *)
Lemma Sorted_select {A B} (R1 : relation A) (R2 : relation B) (f : A → B)
    (P : A → Prop) (l : list A) :
  (∀ x y, P x → P y → R1 x y → R2 (f x) (f y)) →
  Forall P l → Sorted R1 l → Sorted R2 (f <$> l).
Proof.
  intros HR HP Hs. induction Hs as [|x l _ IH Hhd]; [constructor|].
  apply Forall_cons in HP as [Hx HP]. rewrite fmap_cons.
  constructor; [by apply IH|].
  destruct Hhd as [|y l' Hxy]; [constructor|].
  apply Forall_cons in HP as [Hy _]. rewrite fmap_cons. constructor. auto.
Qed.

End SQLFacts.

Import SQL SQLFacts.

(** ** Queries 1 and 3: totals per owner *)

Section owner_totals.
Variable st : Store.

Lemma q1_rows_of_owner d r : r ∈ q1_rows_of st d → r.1.1 = d.
Proof.
  unfold q1_rows_of.
  intros (p & (l & Hr & _)%list_elem_of_bind & _)%list_elem_of_bind.
  by apply list_elem_of_singleton in Hr as ->.
Qed.

Lemma q1_rows_of_batches d :
  (λ r, r.2) <$> q1_rows_of st d = spec_owner_batches st d.
Proof.
  unfold q1_rows_of, spec_owner_batches, spec_owner_properties.
  induction (filter _ (propriedades st)) as [|p ps IH]; [done|].
  rewrite !bind_cons, fmap_app, IH. f_equal.
  unfold spec_property_batches.
  induction (filter _ (lotes st)) as [|l ls IHl]; [done|].
  rewrite bind_cons, fmap_app, IHl. done.
Qed.

Lemma q3_rows_of_owner d r : r ∈ q3_rows_of st d → r.1 = d.
Proof.
  unfold q3_rows_of. intros (p & Hr & _)%list_elem_of_bind.
  by apply list_elem_of_singleton in Hr as ->.
Qed.

Lemma q3_rows_of_properties d :
  (λ r, r.2) <$> q3_rows_of st d = spec_owner_properties st d.
Proof.
  unfold q3_rows_of, spec_owner_properties.
  induction (filter _ (propriedades st)) as [|p ps IH]; [done|].
  rewrite bind_cons, fmap_app, IH. done.
Qed.

Lemma fmap_nil_iff {A B} (f : A → B) (l : list A) : f <$> l = [] ↔ l = [].
Proof. by destruct l. Qed.

Lemma q1_groups :
  NoDup (dono_id <$> donos st) →
  group_by (λ r, dono_id r.1.1) (q1_join st)
  ≡ₚ (λ d, (dono_id d, q1_rows_of st d))
       <$> filter (λ d, spec_owner_batches st d ≠ []) (donos st).
Proof.
  intros Hnd.
  rewrite (list_filter_iff _ (λ d, q1_rows_of st d ≠ [])).
  - apply (group_by_join dono_id (λ r, dono_id r.1.1) (q1_rows_of st)); [done|].
    intros d r _ Hr. by rewrite (q1_rows_of_owner d r).
  - intros d. by rewrite <-q1_rows_of_batches, fmap_nil_iff.
Qed.

Lemma q3_groups :
  NoDup (dono_id <$> donos st) →
  group_by (λ r, dono_id r.1) (q3_join st)
  ≡ₚ (λ d, (dono_id d, q3_rows_of st d))
       <$> filter (λ d, spec_owner_properties st d ≠ []) (donos st).
Proof.
  intros Hnd.
  rewrite (list_filter_iff _ (λ d, q3_rows_of st d ≠ [])).
  - apply (group_by_join dono_id (λ r, dono_id r.1) (q3_rows_of st)); [done|].
    intros d r _ Hr. by rewrite (q3_rows_of_owner d r).
  - intros d. by rewrite <-q3_rows_of_properties, fmap_nil_iff.
Qed.

Lemma q1_Permutation :
  NoDup (dono_id <$> donos st) →
  q1 st ≡ₚ (λ d, (dono_nome d, spec_total_animals st d))
             <$> filter (λ d, spec_owner_batches st d ≠ []) (donos st).
Proof.
  intros Hnd. unfold q1.
  rewrite order_by_desc_Permutation, q1_groups by done.
  rewrite <-list_fmap_compose. apply reflexive_eq, Forall_fmap_ext.
  apply Forall_forall. intros d [Hne _]%list_elem_of_filter.
  unfold q1_sum, spec_total_animals. cbn [compose fst snd].
  rewrite <-q1_rows_of_batches, fmap_nil_iff in Hne.
  rewrite <-q1_rows_of_batches, <-list_fmap_compose.
  rewrite SUM_nonempty by (by rewrite fmap_nil_iff).
  f_equal.
  destruct (q1_rows_of st d) as [|r rs] eqn:Hrows; [done|]. simpl.
  rewrite (q1_rows_of_owner d r); [done|]. rewrite Hrows. left.
Qed.

Lemma q3_Permutation :
  NoDup (dono_id <$> donos st) →
  q3 st ≡ₚ (λ d, (dono_nome d, spec_total_hectares st d))
             <$> filter (λ d, spec_owner_properties st d ≠ []) (donos st).
Proof.
  intros Hnd. unfold q3.
  rewrite order_by_desc_Permutation, q3_groups by done.
  rewrite <-list_fmap_compose. apply reflexive_eq, Forall_fmap_ext.
  apply Forall_forall. intros d [Hne _]%list_elem_of_filter.
  unfold q3_sum, spec_total_hectares. cbn [compose fst snd].
  rewrite <-q3_rows_of_properties, fmap_nil_iff in Hne.
  rewrite <-q3_rows_of_properties, <-list_fmap_compose.
  rewrite SUM_nonempty by (by rewrite fmap_nil_iff).
  f_equal.
  destruct (q3_rows_of st d) as [|r rs] eqn:Hrows; [done|]. simpl.
  rewrite (q3_rows_of_owner d r); [done|]. rewrite Hrows. left.
Qed.

End owner_totals.

Ltac solve_by_compute := apply (bool_decide_unpack _); vm_compute; exact I.

(** C1. Query A has exactly one record per Owner that has at least one
    Batch reachable through its Properties, carrying the Owner's name and
    the arithmetic sum of [quantidade] over those Batches; an Owner without
    Properties, or whose Properties have no Batches, has no reachable Batch
    and so no record. [quantidade] is [nullable=False]: no count is null.
    [Dono.id] is the primary key. *)
Theorem query_a_totals_per_owner (st : Store) :
  NoDup (dono_id <$> donos st) →
  animais_por_proprietario st
    ≡ₚ (λ d, (dono_nome d, spec_total_animals st d))
         <$> filter (λ d, spec_owner_batches st d ≠ []) (donos st)
  ∧ (∀ d, d ∈ donos st → spec_owner_batches st d ≠ [] →
       (dono_nome d, spec_total_animals st d) ∈ animais_por_proprietario st)
  ∧ (∀ d, spec_owner_properties st d = []
          ∨ (∀ p, p ∈ spec_owner_properties st d →
                  spec_property_batches st p = []) →
       spec_owner_batches st d = [])
  ∧ length (animais_por_proprietario st)
    = length (filter (λ d, spec_owner_batches st d ≠ []) (donos st)).
Proof.
  intros Hnd. pose proof (q1_Permutation st Hnd) as Hperm.
  unfold animais_por_proprietario. split_and!.
  - done.
  - intros d Hd Hne. rewrite Hperm.
    apply (list_elem_of_fmap_2 (λ d, (dono_nome d, spec_total_animals st d))).
    by apply list_elem_of_filter.
  - intros d [Hnil|Hnil]; unfold spec_owner_batches.
    + by rewrite Hnil.
    + induction (spec_owner_properties st d) as [|p ps IH]; [done|].
      rewrite bind_cons, (Hnil p), IH; [done| |left].
      intros q Hq. apply Hnil. by right.
  - by rewrite Hperm, length_fmap.
Qed.

Lemma query_a_totals_per_owner_witness :
  NoDup (dono_id <$> donos ana_store)
  ∧ animais_por_proprietario ana_store = [("Ana", 20)]
  ∧ length (animais_por_proprietario ana_store)
    = length (filter (λ d, spec_owner_batches ana_store d ≠ [])
                (donos ana_store)).
Proof.
  assert (NoDup (dono_id <$> donos ana_store)) as Hnd by solve_by_compute.
  split; [exact Hnd|]. split; [reflexivity|].
  apply (query_a_totals_per_owner ana_store Hnd).
Defined.

(** C2. Query C has one record per Owner with at least one Property,
    whose hectares are the sum of [area_total_ha] over exactly that Owner's
    Properties, a decimal with two fractional digits (held in hundredths);
    Batches play no part. For Ana's Properties of 10.00 ha and 5.50 ha,
    whatever the Batches, Query C gives 15.50, while Query A gives the 20
    animals of her one Batch. *)
Theorem query_c_hectares_per_owner (st : Store) :
  NoDup (dono_id <$> donos st) →
  area_por_proprietario st
    ≡ₚ (λ d, (dono_nome d, spec_total_hectares st d))
         <$> filter (λ d, spec_owner_properties st d ≠ []) (donos st)
  ∧ (∀ d, d ∈ donos st → spec_owner_properties st d ≠ [] →
       (dono_nome d, spec_total_hectares st d) ∈ area_por_proprietario st)
  ∧ (∀ kinds batches,
       area_por_proprietario (mkStore [ana] ana_properties kinds batches)
       = [("Ana", 1550)])
  ∧ (∀ kinds,
       animais_por_proprietario
         (mkStore [ana] ana_properties kinds [mkLote 1 2 1 20 None])
       = [("Ana", 20)]).
Proof.
  intros Hnd. pose proof (q3_Permutation st Hnd) as Hperm.
  unfold area_por_proprietario. split_and!.
  - done.
  - intros d Hd Hne. rewrite Hperm.
    apply (list_elem_of_fmap_2 (λ d, (dono_nome d, spec_total_hectares st d))).
    by apply list_elem_of_filter.
  - intros kinds batches. reflexivity.
  - intros kinds. reflexivity.
Qed.

Lemma query_c_hectares_per_owner_witness :
  NoDup (dono_id <$> donos ana_store)
  ∧ (dono_nome ana, spec_total_hectares ana_store ana)
    ∈ area_por_proprietario ana_store.
Proof.
  assert (NoDup (dono_id <$> donos ana_store)) as Hnd by solve_by_compute.
  split; [exact Hnd|].
  apply (query_c_hectares_per_owner ana_store Hnd).
  - left.
  - discriminate.
Defined.

(** ** Query 2: totals per breed *)

Lemma COALESCE_SUM (l : list Z) : COALESCE (SUM l) 0 = sum_list l.
Proof. by destruct l. Qed.

Lemma q2_rows (st : Store) (r : option string * Z) :
  r ∈ q2 st ↔
  r.1 ∈ (λ x, animal_raca x.1) <$> q2_join st
  ∧ r.2 = sum_list ((λ x, lote_quantidade x.2)
                      <$> filter (λ x, animal_raca x.1 = r.1) (q2_join st)).
Proof.
  unfold q2, q2_groups. rewrite list_elem_of_fmap. split.
  - intros ([k g] & -> & Hg). rewrite elem_of_order_by_desc in Hg.
    apply elem_of_group_by in Hg as [Hk ->].
    unfold q2_sum. by rewrite COALESCE_SUM.
  - destruct r as [k n]. cbn [fst snd]. intros [Hk ->].
    exists (k, filter (λ x, animal_raca x.1 = k) (q2_join st)).
    unfold q2_sum. rewrite COALESCE_SUM. split; [done|].
    rewrite elem_of_order_by_desc. by apply elem_of_group_by.
Qed.

Lemma q2_functional (st : Store) r1 r2 :
  r1 ∈ q2 st → r2 ∈ q2 st → r1.1 = r2.1 → r1 = r2.
Proof.
  rewrite !q2_rows. destruct r1 as [k1 n1], r2 as [k2 n2]. simpl.
  intros [_ ->] [_ ->] ->. done.
Qed.

Lemma q2_join_breed (st : Store) (v : option string) :
  v ∈ (λ x, animal_raca x.1) <$> q2_join st →
  ∃ a, a ∈ animais st ∧ animal_raca a = v.
Proof.
  intros (x & -> & Hx)%list_elem_of_fmap. unfold q2_join in Hx.
  apply list_elem_of_bind in Hx as (a & Hx & Ha).
  apply list_elem_of_bind in Hx as (l & Hx & _).
  apply list_elem_of_singleton in Hx as ->. eauto.
Qed.

Lemma q2_total (st : Store) :
  NoDup (animal_id <$> animais st) →
  sum_list (snd <$> q2 st)
  = sum_list (lote_quantidade <$> spec_batches_with_kind st).
Proof.
  intros Hnd. unfold q2, q2_groups. rewrite <-list_fmap_compose.
  erewrite sum_list_Permutation
    by apply fmap_Permutation, order_by_desc_Permutation.
  erewrite (list_fmap_ext _ (λ g, sum_list ((λ x, lote_quantidade x.2) <$> g.2)))
    by (intros; apply COALESCE_SUM).
  rewrite group_by_sum. unfold q2_join, spec_batches_with_kind.
  rewrite <-(sum_by_keys lote_animal_id lote_quantidade) by done.
  rewrite <-list_fmap_compose. clear Hnd.
  induction (animais st) as [|a kinds IH]; [done|].
  rewrite bind_cons, !fmap_app, sum_list_app, IH, fmap_cons, sum_list_cons.
  f_equal. cbn [compose].
  induction (filter _ (lotes st)) as [|l ls IHl]; [done|].
  rewrite bind_cons, fmap_app, sum_list_app, IHl, !fmap_cons, !sum_list_cons.
  rewrite fmap_nil. cbn [snd sum_list foldr]. lia.
Qed.

(** ** Query 4: farms per state *)

Lemma q4_rows (st : Store) (r : string * Z) :
  r ∈ q4 st ↔
  r.1 ∈ prop_estado <$> propriedades st
  ∧ r.2 = COUNT (filter (λ p, prop_estado p = r.1) (propriedades st)).
Proof.
  unfold q4, q4_groups. rewrite list_elem_of_fmap. split.
  - intros ([k g] & -> & Hg). rewrite elem_of_order_by_desc in Hg.
    apply elem_of_group_by in Hg as [Hk ->].
    unfold q4_count, COUNT. by rewrite length_fmap.
  - destruct r as [k n]. cbn [fst snd]. intros [Hk ->].
    exists (k, filter (λ p, prop_estado p = k) (propriedades st)).
    unfold q4_count, COUNT. rewrite length_fmap. split; [done|].
    rewrite elem_of_order_by_desc. by apply elem_of_group_by.
Qed.

Lemma q4_total (st : Store) :
  sum_list (snd <$> q4 st) = Z.of_nat (length (propriedades st)).
Proof.
  unfold q4, q4_groups. rewrite <-list_fmap_compose.
  erewrite sum_list_Permutation
    by apply fmap_Permutation, order_by_desc_Permutation.
  erewrite (list_fmap_ext _ (λ g, sum_list ((λ _, 1) <$> g.2))).
  - rewrite group_by_sum, <-COUNT_sum. done.
  - intros _ g _. cbn [compose snd]. unfold q4_count, COUNT.
    rewrite length_fmap. apply (COUNT_sum g.2).
Qed.

(** C3, as stated, fails: a breed stored as NULL and a breed stored as the
    empty string are two values for [GROUP BY], and the label is put on the
    rows only afterwards, so Query B then has two groups of absent breed,
    both labelled "Não informado". *)
Lemma query_b_two_absent_groups :
  ¬ one_absent_breed_group two_absent_breeds_store
  ∧ animais_por_raca two_absent_breeds_store
    = [("Não informado", 20); ("Não informado", 7)].
Proof.
  assert (q2 two_absent_breeds_store = [(None, 20); (Some "", 7)]) as Hq2
    by reflexivity.
  split; [|reflexivity].
  intros Hone.
  specialize (Hone (None, 20) (Some "", 7)). rewrite Hq2 in Hone.
  discriminate Hone.
  - left.
  - right. left.
  - by left.
  - by right.
Qed.

Lemma q2_keys_NoDup (st : Store) : NoDup (q2 st).*1.
Proof.
  unfold q2, q2_groups. rewrite <-list_fmap_compose.
  rewrite order_by_desc_Permutation.
  apply (group_by_NoDup (λ r : Animal * Lote, animal_raca r.1)).
Qed.

Lemma q2_absent_at_most_two (st : Store) :
  (length (filter (λ r, breed_absent r.1) (q2 st)) ≤ 2)%nat.
Proof.
  rewrite <-(length_fmap fst).
  change 2%nat with (length [None; Some ""]).
  apply submseteq_length, NoDup_submseteq.
  - apply NoDup_fmap_2_strong.
    + intros r1 r2 [_ Hr1]%list_elem_of_filter [_ Hr2]%list_elem_of_filter.
      by apply (q2_functional st).
    + apply NoDup_filter, (NoDup_fmap_1 fst), q2_keys_NoDup.
  - intros v (r & -> & [Habs _]%list_elem_of_filter)%list_elem_of_fmap.
    destruct Habs as [-> | ->]; [left | right; left].
Qed.

(** C3, amended. In every store that satisfies the keys of [Animal] and
    [Lote] (so also in the store of the counterexample), Query B has one
    group per stored breed value: all Batches whose AnimalKind has a null
    breed are summed in exactly one group, all Batches whose AnimalKind has
    the empty string as breed in exactly one other group, each labelled
    "Não informado"; so there are at most two groups of absent breed, and
    at most one when no AnimalKind has the empty string as breed. The
    labelling never fails, and the totals of all groups add up to the sum
    of [quantidade] over all Batches ([animal_id] is [nullable=False]: every
    Batch has a non-null AnimalKind reference). *)
Theorem query_b_breed_groups (st : Store) :
  NoDup (animal_id <$> animais st) →
  Forall (λ l, lote_animal_id l ∈ animal_id <$> animais st) (lotes st) →
  (∀ r1 r2, r1 ∈ q2 st → r2 ∈ q2 st → r1.1 = r2.1 → r1 = r2)
  ∧ (∀ x, x ∈ q2_join st →
       (animal_raca x.1,
        sum_list ((λ y, lote_quantidade y.2)
                    <$> filter (λ y, animal_raca y.1 = animal_raca x.1)
                          (q2_join st))) ∈ q2 st)
  ∧ (∀ x, x ∈ q2_join st → breed_absent (animal_raca x.1) →
       ("Não informado",
        sum_list ((λ y, lote_quantidade y.2)
                    <$> filter (λ y, animal_raca y.1 = animal_raca x.1)
                          (q2_join st))) ∈ animais_por_raca st)
  ∧ (length (filter (λ r, breed_absent r.1) (q2 st)) ≤ 2)%nat
  ∧ ((∀ a, a ∈ animais st → animal_raca a ≠ Some "") →
     one_absent_breed_group st)
  ∧ sum_list (snd <$> animais_por_raca st)
    = sum_list (lote_quantidade <$> lotes st).
Proof.
  intros Hnd Hfk.
  assert (∀ x, x ∈ q2_join st →
            (animal_raca x.1,
             sum_list ((λ y, lote_quantidade y.2)
                         <$> filter (λ y, animal_raca y.1 = animal_raca x.1)
                               (q2_join st))) ∈ q2 st) as Hgroup.
  { intros x Hx. apply q2_rows. split; [|done].
    by apply (list_elem_of_fmap_2 (λ x, animal_raca x.1)). }
  split_and!.
  - apply q2_functional.
  - exact Hgroup.
  - intros x Hx Habs. unfold animais_por_raca.
    apply (list_elem_of_fmap_2' _ _ _ _ (Hgroup x Hx)).
    cbn [fst snd]. by destruct Habs as [-> | ->].
  - apply q2_absent_at_most_two.
  - intros Hne r1 r2 Hr1 Hr2 Ha1 Ha2. apply (q2_functional st); [done..|].
    assert (∀ r, r ∈ q2 st → breed_absent r.1 → r.1 = None) as Hnone.
    { intros r [Hr _]%q2_rows [Hn|He]; [done|].
      apply q2_join_breed in Hr as (a & Ha & Hraca).
      destruct (Hne a Ha). congruence. }
    by rewrite (Hnone r1), (Hnone r2).
  - unfold animais_por_raca. rewrite <-list_fmap_compose.
    change (sum_list (snd <$> q2 st) = sum_list (lote_quantidade <$> lotes st)).
    rewrite q2_total by done. unfold spec_batches_with_kind.
    rewrite filter_all; [done|]. by apply Forall_forall.
Qed.

Lemma query_b_breed_groups_witness :
  NoDup (animal_id <$> animais two_absent_breeds_store)
  ∧ Forall (λ l, lote_animal_id l
                 ∈ animal_id <$> animais two_absent_breeds_store)
      (lotes two_absent_breeds_store)
  ∧ (length (filter (λ r, breed_absent r.1) (q2 two_absent_breeds_store))
     ≤ 2)%nat
  ∧ sum_list (snd <$> animais_por_raca two_absent_breeds_store)
    = sum_list (lote_quantidade <$> lotes two_absent_breeds_store)
  ∧ one_absent_breed_group null_breed_store
  ∧ animais_por_raca null_breed_store = [("Não informado", 25); ("Nelore", 7)].
Proof.
  assert (NoDup (animal_id <$> animais two_absent_breeds_store)) as Hnd
    by solve_by_compute.
  assert (Forall (λ l, lote_animal_id l
                       ∈ animal_id <$> animais two_absent_breeds_store)
            (lotes two_absent_breeds_store)) as Hfk by solve_by_compute.
  assert (NoDup (animal_id <$> animais null_breed_store)) as Hnd'
    by solve_by_compute.
  assert (Forall (λ l, lote_animal_id l ∈ animal_id <$> animais null_breed_store)
            (lotes null_breed_store)) as Hfk' by solve_by_compute.
  destruct (query_b_breed_groups two_absent_breeds_store Hnd Hfk)
    as (_ & _ & _ & Htwo & _ & Hsum).
  destruct (query_b_breed_groups null_breed_store Hnd' Hfk')
    as (_ & _ & _ & _ & Hone & _).
  split; [exact Hnd|]. split; [exact Hfk|]. split; [exact Htwo|].
  split; [exact Hsum|]. split; [|reflexivity].
  apply Hone. intros a Ha. unfold null_breed_store in Ha. cbn [animais] in Ha.
  apply elem_of_cons in Ha as [->|Ha]; [discriminate|].
  apply list_elem_of_singleton in Ha as ->. discriminate.
Defined.

(** C4. The farm counts of Query D add up to the number of Property
    records, and the Properties with an empty state are counted in one
    group, labelled "Não informado". [estado] is [nullable=False], so no
    state is null, and the groups have pairwise distinct states. *)
Theorem query_d_farms_per_state (st : Store) :
  sum_list (snd <$> fazendas_por_estado st)
    = Z.of_nat (length (propriedades st))
  ∧ (∀ r1 r2, r1 ∈ q4 st → r2 ∈ q4 st → r1.1 = r2.1 → r1 = r2)
  ∧ (∀ p, p ∈ propriedades st →
       (prop_estado p,
        COUNT (filter (λ p', prop_estado p' = prop_estado p) (propriedades st)))
       ∈ q4 st)
  ∧ (∀ r, r ∈ q4 st → r.1 = "" →
       ("Não informado",
        COUNT (filter (λ p, prop_estado p = "") (propriedades st)))
       ∈ fazendas_por_estado st).
Proof.
  split_and!.
  - unfold fazendas_por_estado. rewrite <-list_fmap_compose.
    apply q4_total.
  - intros [k1 n1] [k2 n2]. rewrite !q4_rows. cbn [fst snd].
    intros [_ ->] [_ ->] ->. done.
  - intros p Hp. apply q4_rows. split; [|done].
    cbn [fst]. by apply list_elem_of_fmap_2.
  - intros [k n] Hr Hk. cbn [fst] in Hk. subst k.
    pose proof Hr as [_ Hn]%q4_rows. cbn [fst snd] in Hn. subst n.
    unfold fazendas_por_estado.
    by apply (list_elem_of_fmap_2' _ _ _ _ Hr).
Qed.

(** ** Ordering of the four reports *)

Global Instance by_total_desc_trans : Transitive by_total_desc.
Proof. intros x y z. unfold by_total_desc. lia. Qed.

Lemma sum_ordered {A} (col : A → Z) (g1 g2 : list A) :
  g1 ≠ [] → g2 ≠ [] →
  null_le (SUM (col <$> g2)) (SUM (col <$> g1)) →
  COALESCE (SUM (col <$> g2)) 0 ≤ COALESCE (SUM (col <$> g1)) 0.
Proof. destruct g1, g2; done. Qed.

Lemma group_by_sorted_nonempty {A K} `{EqDecision K} (key : A → K)
    (aggr : K * list A → option Z) (rows : list A) :
  Forall (λ g, g.2 ≠ []) (order_by_desc aggr (group_by key rows)).
Proof.
  apply Forall_forall. intros [k g] Hg. rewrite elem_of_order_by_desc in Hg.
  by apply group_by_nonempty in Hg.
Qed.

(** C5. Each of the four lists of the bundle is in descending order of
    its number: any record has at least the number of every record after
    it, equal numbers in either order. *)
Theorem bi_reports_sorted_desc (st : Store) :
  StronglySorted by_total_desc (animais_por_proprietario st)
  ∧ StronglySorted by_total_desc (animais_por_raca st)
  ∧ StronglySorted by_total_desc (area_por_proprietario st)
  ∧ StronglySorted by_total_desc (fazendas_por_estado st).
Proof.
  split_and!; apply Sorted_StronglySorted; try apply _.
  - unfold animais_por_proprietario, q1.
    eapply Sorted_select;
      [|apply group_by_sorted_nonempty|apply order_by_desc_Sorted].
    intros g1 g2 Hg1 Hg2. unfold desc, by_total_desc, q1_sum. cbn [snd].
    by apply sum_ordered.
  - unfold animais_por_raca, q2, q2_groups. rewrite <-list_fmap_compose.
    eapply Sorted_select;
      [|apply group_by_sorted_nonempty|apply order_by_desc_Sorted].
    intros g1 g2 Hg1 Hg2. unfold desc, by_total_desc, q2_sum. cbn [compose snd].
    by apply sum_ordered.
  - unfold area_por_proprietario, q3.
    eapply Sorted_select;
      [|apply group_by_sorted_nonempty|apply order_by_desc_Sorted].
    intros g1 g2 Hg1 Hg2. unfold desc, by_total_desc, q3_sum. cbn [snd].
    by apply sum_ordered.
  - unfold fazendas_por_estado, q4, q4_groups. rewrite <-list_fmap_compose.
    eapply (Sorted_select _ _ _ (λ _, True));
      [|by apply Forall_forall|apply order_by_desc_Sorted].
    intros g1 g2 _ _. unfold desc, by_total_desc. cbn [compose snd null_le].
    done.
Qed.

(** ** The bundle endpoint *)

Lemma execute_ok {A} (db : Db) (op : DbOp) (q : Store → A) :
  db_fault db op = None → execute db op q = Return (q (db_store db)).
Proof. unfold execute. by intros ->. Qed.

Lemma execute_fault {A} (db : Db) (op : DbOp) (q : Store → A) msg :
  db_fault db op = Some msg → execute db op q = Raise (OtherError msg).
Proof. unfold execute. by intros ->. Qed.

Lemma bi_dashboard_data_ok (db : Db) :
  Forall (λ op, db_fault db op = None) bi_ops →
  bi_dashboard_data db = Return (bi_bundle (db_store db)).
Proof.
  intros Hok. unfold bi_ops in Hok.
  apply Forall_cons in Hok as [H1 Hok]. apply Forall_cons in Hok as [H2 Hok].
  apply Forall_cons in Hok as [H3 Hok]. apply Forall_cons in Hok as [H4 _].
  unfold bi_dashboard_data. rewrite !execute_ok by done. cbn [mbind Exc_bind].
  unfold mret, Exc_ret. f_equal.
  unfold bi_bundle, json_pairs, animais_por_proprietario, animais_por_raca,
    area_por_proprietario, fazendas_por_estado.
  by rewrite <-!list_fmap_compose.
Qed.

Lemma bi_dashboard_data_fault (db : Db) :
  Exists (λ op, db_fault db op ≠ None) bi_ops →
  ∃ op msg, op ∈ bi_ops ∧ db_fault db op = Some msg
            ∧ bi_dashboard_data db = Raise (OtherError msg).
Proof.
  intros Hex. unfold bi_dashboard_data, execute.
  destruct (db_fault db OpQ1) as [m1|] eqn:H1.
  { exists OpQ1, m1. split_and!; [|done..]. unfold bi_ops. set_solver. }
  destruct (db_fault db OpQ2) as [m2|] eqn:H2.
  { exists OpQ2, m2. split_and!; [|done..]. unfold bi_ops. set_solver. }
  destruct (db_fault db OpQ3) as [m3|] eqn:H3.
  { exists OpQ3, m3. split_and!; [|done..]. unfold bi_ops. set_solver. }
  destruct (db_fault db OpQ4) as [m4|] eqn:H4.
  { exists OpQ4, m4. split_and!; [|done..]. unfold bi_ops. set_solver. }
  exfalso. apply Exists_exists in Hex as (op & Hop & Hne).
  unfold bi_ops in Hop. set_unfold in Hop.
  destruct Hop as [->|[->|[->|[->|[]]]]]; done.
Qed.

(** C6. [GET /api/bi/dashboard] fails as a whole: when one of the four
    queries raises, the response is the single object [{"error": message}]
    with status 500, the message being that of the query that raised, and
    none of the four arrays is in it; when all four succeed, the response
    is the object holding exactly the four named arrays (status 200). *)
Theorem bi_dashboard_atomic (db : Db) (req : Request) (s : Session) :
  (Exists (λ op, db_fault db op ≠ None) bi_ops →
   ∃ op msg,
     op ∈ bi_ops ∧ db_fault db op = Some msg
     ∧ bi_dashboard db req s = (db, s, Json {["error" := JMsg msg]} 500)
     ∧ Forall (λ k, ({["error" := JMsg msg]} : gmap string JBody) !! k = None)
         bi_keys)
  ∧ (Forall (λ op, db_fault db op = None) bi_ops →
     bi_dashboard db req s = (db, s, Json (bi_bundle (db_store db)) 200)
     ∧ dom (bi_bundle (db_store db)) = list_to_set bi_keys).
Proof.
  split.
  - intros (op & msg & Hop & Hmsg & Hraise)%bi_dashboard_data_fault.
    exists op, msg. split_and!; [done..| |].
    + unfold bi_dashboard. by rewrite Hraise.
    + unfold bi_keys. repeat constructor.
  - intros Hok%bi_dashboard_data_ok. split.
    + unfold bi_dashboard. by rewrite Hok.
    + unfold bi_bundle, bi_keys. rewrite !dom_insert_L, dom_empty_L.
      cbn [list_to_set foldr]. set_solver.
Qed.

Lemma bi_dashboard_atomic_witness :
  (∃ op msg,
     op ∈ bi_ops ∧ db_fault (faulty_db OpQ3 "connection lost") op = Some msg
     ∧ bi_dashboard (faulty_db OpQ3 "connection lost") (mkRequest ∅) bob_session
       = (faulty_db OpQ3 "connection lost", bob_session,
          Json {["error" := JMsg msg]} 500)
     ∧ Forall (λ k, ({["error" := JMsg msg]} : gmap string JBody) !! k = None)
         bi_keys)
  ∧ bi_dashboard healthy_db (mkRequest ∅) bob_session
    = (healthy_db, bob_session, Json (bi_bundle ana_store) 200).
Proof.
  split.
  - apply (bi_dashboard_atomic (faulty_db OpQ3 "connection lost")
             (mkRequest ∅) bob_session).
    apply Exists_exists. exists OpQ3. split; [|discriminate].
    unfold bi_ops. set_solver.
  - apply (bi_dashboard_atomic healthy_db (mkRequest ∅) bob_session).
    unfold bi_ops. by repeat constructor.
Defined.

(** ** The dashboard statistics *)

Lemma index_try_fault (db : Db) :
  Exists (λ op, db_fault db op ≠ None) index_ops →
  ∃ op msg, op ∈ index_ops ∧ db_fault db op = Some msg
            ∧ index_try db = Raise (OtherError msg).
Proof.
  intros Hex. unfold index_try, execute.
  destruct (db_fault db OpCountDono) as [m1|] eqn:H1.
  { exists OpCountDono, m1. split_and!; [|done..]. unfold index_ops. set_solver. }
  destruct (db_fault db OpCountPropriedade) as [m2|] eqn:H2.
  { exists OpCountPropriedade, m2. split_and!; [|done..].
    unfold index_ops. set_solver. }
  destruct (db_fault db OpCountAnimal) as [m3|] eqn:H3.
  { exists OpCountAnimal, m3. split_and!; [|done..].
    unfold index_ops. set_solver. }
  destruct (db_fault db OpCountLote) as [m4|] eqn:H4.
  { exists OpCountLote, m4. split_and!; [|done..].
    unfold index_ops. set_solver. }
  destruct (db_fault db OpSumQuantidade) as [m5|] eqn:H5.
  { exists OpSumQuantidade, m5. split_and!; [|done..].
    unfold index_ops. set_solver. }
  destruct (db_fault db OpCountTipos) as [m6|] eqn:H6.
  { exists OpCountTipos, m6. split_and!; [|done..].
    unfold index_ops. set_solver. }
  destruct (db_fault db OpCountRacas) as [m7|] eqn:H7.
  { exists OpCountRacas, m7. split_and!; [|done..].
    unfold index_ops. set_solver. }
  destruct (db_fault db OpLotesRecentes) as [m8|] eqn:H8.
  { exists OpLotesRecentes, m8. split_and!; [|done..].
    unfold index_ops. set_solver. }
  exfalso. apply Exists_exists in Hex as (op & Hop & Hne).
  unfold index_ops in Hop. set_unfold in Hop.
  destruct Hop as [->|[->|[->|[->|[->|[->|[->|[->|[]]]]]]]]]; done.
Qed.

(** C7, as stated, fails on the level of the message: the failure of a
    statistic is flashed in the category "danger", not "warning". *)
Lemma index_failure_is_flashed_as_danger :
  session_flashes
    (index (faulty_db OpSumQuantidade "connection lost") (mkRequest ∅)
       bob_session).1.2
  = [("danger", "Erro ao carregar dados do dashboard: connection lost")]
  ∧ ¬ ∃ msg,
      session_flashes
        (index (faulty_db OpSumQuantidade "connection lost") (mkRequest ∅)
           bob_session).1.2
      = [("warning", msg)].
Proof.
  split; [reflexivity|]. intros [msg Hmsg]. vm_compute in Hmsg.
  discriminate Hmsg.
Qed.

(** C7, amended. For a logged-in caller, when the computation of any of
    the statistics raises, every number of the rendered dashboard is zero,
    both lists are empty, and exactly one message is flashed for the whole
    bundle, in the category "danger", carrying the text of the exception. *)
Theorem index_fail_to_zero (db : Db) (req : Request) (s : Session) :
  session_keys s !! "user" ≠ None →
  Exists (λ op, db_fault db op ≠ None) index_ops →
  ∃ op msg,
    op ∈ index_ops ∧ db_fault db op = Some msg
    ∧ index db req s
      = (db,
         flash ("Erro ao carregar dados do dashboard: " +:+ msg) "danger" s,
         index_render index_zero)
    ∧ session_flashes (index db req s).1.2
      = (session_flashes s
           ++ [("danger", "Erro ao carregar dados do dashboard: " +:+ msg)])%list.
Proof.
  intros Huser (op & msg & Hop & Hmsg & Hraise)%index_try_fault.
  exists op, msg.
  assert (index db req s
          = (db,
             flash ("Erro ao carregar dados do dashboard: " +:+ msg) "danger" s,
             index_render index_zero)) as Hidx.
  { unfold index, login_required. rewrite decide_False by done.
    by rewrite Hraise. }
  split_and!; [done..|]. by rewrite Hidx.
Qed.

Lemma index_fail_to_zero_witness :
  session_keys bob_session !! "user" ≠ None
  ∧ ∃ op msg,
      op ∈ index_ops
      ∧ db_fault (faulty_db OpLotesRecentes "connection lost") op = Some msg
      ∧ index (faulty_db OpLotesRecentes "connection lost") (mkRequest ∅)
          bob_session
        = (faulty_db OpLotesRecentes "connection lost",
           flash ("Erro ao carregar dados do dashboard: " +:+ msg) "danger"
             bob_session,
           index_render index_zero)
      ∧ session_flashes
          (index (faulty_db OpLotesRecentes "connection lost") (mkRequest ∅)
             bob_session).1.2
        = (session_flashes bob_session
             ++ [("danger", "Erro ao carregar dados do dashboard: " +:+ msg)])%list.
Proof.
  assert (session_keys bob_session !! "user" ≠ None) as Huser by discriminate.
  split; [exact Huser|].
  apply (index_fail_to_zero (faulty_db OpLotesRecentes "connection lost")
           (mkRequest ∅) bob_session Huser).
  apply Exists_exists. exists OpLotesRecentes. split; [|discriminate].
  unfold index_ops. set_solver.
Defined.

(** ** Access control *)

(** C10. [/api/bi/dashboard] is not login-gated: for every session, with
    or without a user, it computes and returns the BI bundle (the four
    reports of the store, status 200) or, when a query raises, the error
    object with the message of that query (status 500); it never
    redirects, flashes nothing, and its response does not depend on the
    session. The HTML pages [/bi/dashboard] and [/index] send a caller
    without a user to the login page. *)
Theorem bi_dashboard_not_login_gated (db : Db) (req : Request) (s : Session) :
  ((Forall (λ op, db_fault db op = None) bi_ops
    ∧ bi_dashboard db req s = (db, s, Json (bi_bundle (db_store db)) 200))
   ∨ (∃ op msg,
        op ∈ bi_ops ∧ db_fault db op = Some msg
        ∧ bi_dashboard db req s = (db, s, Json {["error" := JMsg msg]} 500)))
  ∧ (∀ target, (bi_dashboard db req s).2 ≠ Redirect target)
  ∧ (∀ s', (bi_dashboard db req s').2 = (bi_dashboard db req s).2)
  ∧ (session_keys s !! "user" = None →
       bi_dashboard_page db req s
       = (db, flash "Faça login para acessar esta página." "warning" s,
          Redirect "login")
       ∧ index db req s
         = (db, flash "Faça login para acessar esta página." "warning" s,
            Redirect "login"))
  ∧ (session_keys s !! "user" ≠ None →
       bi_dashboard_page db req s
       = (db, s, Render "bi.html" [("show_menu", TBool true)])).
Proof.
  split_and!.
  - destruct (decide (Forall (λ op, db_fault db op = None) bi_ops))
      as [Hok|Hfail].
    + left. split; [done|].
      unfold bi_dashboard. by rewrite (bi_dashboard_data_ok db Hok).
    + right. apply not_Forall_Exists in Hfail; [|apply _].
      apply bi_dashboard_data_fault in Hfail
        as (op & msg & Hop & Hmsg & Hraise).
      exists op, msg. split_and!; [done..|].
      unfold bi_dashboard. by rewrite Hraise.
  - intros target. unfold bi_dashboard.
    by destruct (bi_dashboard_data db).
  - done.
  - intros Hanon. unfold bi_dashboard_page, index, login_required.
    by rewrite !decide_True.
  - intros Huser. unfold bi_dashboard_page, login_required.
    by rewrite decide_False.
Qed.

(** ** Creating an Owner *)

Section creation.
Context `{PyLib}.



(** ** Creating a Batch *)

Lemma truthy_nonempty (x : string) : x ≠ "" → truthy (Some x) = true.
Proof. by destruct x. Qed.


End creation.



(** * Further properties of the reports *)

Lemma sum_fmap_bind {A B} (g : B → Z) (f : A → list B) (l : list A) :
  sum_list (g <$> (l ≫= f)) = sum_list ((λ x, sum_list (g <$> f x)) <$> l).
Proof.
  induction l as [|x l IH]; [done|].
  by rewrite bind_cons, fmap_app, sum_list_app, IH, fmap_cons, sum_list_cons.
Qed.

(** Summing over the matches of every left row of a join on a unique key
    visits each right row with a match once. *)
Lemma sum_join {A B} (key : A → Z) (fk : B → Z) (f : B → Z)
    (xs : list A) (ys : list B) :
  NoDup (key <$> xs) →
  sum_list ((λ x, sum_list (f <$> filter (λ y, fk y = key x) ys)) <$> xs)
  = sum_list (f <$> filter (λ y, fk y ∈ key <$> xs) ys).
Proof.
  intros Hnd. rewrite <-(sum_by_keys fk f) by done.
  by rewrite <-list_fmap_compose.
Qed.

Lemma or_0_SUM (l : list Z) : or_0 (SUM l) = sum_list l.
Proof.
  destruct l as [|x l]; [done|]. unfold SUM, or_0.
  by destruct (sum_list (x :: l)).
Qed.

Lemma q1_total_join (st : Store) :
  sum_list (snd <$> q1 st)
  = sum_list ((λ d, spec_total_animals st d) <$> donos st).
Proof.
  unfold q1. rewrite <-list_fmap_compose.
  erewrite sum_list_Permutation
    by apply fmap_Permutation, order_by_desc_Permutation.
  erewrite (list_fmap_ext _ (λ g, sum_list ((λ r, lote_quantidade r.2) <$> g.2)))
    by (intros; apply COALESCE_SUM).
  rewrite group_by_sum.
  change (q1_join st) with (donos st ≫= q1_rows_of st).
  rewrite sum_fmap_bind. f_equal. apply list_fmap_ext. intros _ d _.
  unfold spec_total_animals.
  by rewrite <-q1_rows_of_batches, <-list_fmap_compose.
Qed.

Lemma q3_total_join (st : Store) :
  sum_list (snd <$> q3 st)
  = sum_list ((λ d, spec_total_hectares st d) <$> donos st).
Proof.
  unfold q3. rewrite <-list_fmap_compose.
  erewrite sum_list_Permutation
    by apply fmap_Permutation, order_by_desc_Permutation.
  erewrite (list_fmap_ext _ (λ g, sum_list ((λ r, prop_area_total_ha r.2) <$> g.2)))
    by (intros; apply COALESCE_SUM).
  rewrite group_by_sum.
  change (q3_join st) with (donos st ≫= q3_rows_of st).
  rewrite sum_fmap_bind. f_equal. apply list_fmap_ext. intros _ d _.
  unfold spec_total_hectares.
  by rewrite <-q3_rows_of_properties, <-list_fmap_compose.
Qed.

Lemma Forall_filter_all {A} (P : A → Prop) `{∀ x, Decision (P x)} (l : list A) :
  Forall P l → filter P l = l.
Proof. intros HP. apply filter_all. by apply Forall_forall. Qed.

Lemma q1_total_wf (st : Store) :
  store_wf st →
  sum_list (snd <$> q1 st) = sum_list (lote_quantidade <$> lotes st).
Proof.
  intros (Hd & _ & Hp & Ha & _ & Hfk_p & Hfk_l). rewrite q1_total_join.
  unfold spec_total_animals, spec_owner_batches, spec_owner_properties.
  erewrite list_fmap_ext by (intros; apply sum_fmap_bind).
  rewrite (sum_join dono_id prop_dono_id
             (λ p, sum_list (lote_quantidade <$> spec_property_batches st p)))
    by done.
  rewrite Forall_filter_all by done.
  unfold spec_property_batches.
  rewrite (sum_join prop_id lote_propriedade_id lote_quantidade) by done.
  rewrite Forall_filter_all; [done|].
  eapply Forall_impl; [exact Hfk_l|]. by intros l [? _].
Qed.

Lemma q2_total_wf (st : Store) :
  store_wf st →
  sum_list (snd <$> q2 st) = sum_list (lote_quantidade <$> lotes st).
Proof.
  intros (Hd & _ & Hp & Ha & _ & Hfk_p & Hfk_l).
  rewrite q2_total by done. unfold spec_batches_with_kind.
  rewrite Forall_filter_all; [done|].
  eapply Forall_impl; [exact Hfk_l|]. by intros l [_ ?].
Qed.

(** X1. In a store that satisfies the declared keys, the three places
    that show a number of animals agree: the totals of Query A add up to
    the sum of [quantidade] over all Batches, so do the totals of Query B,
    and it is the [quantidade_total] of the dashboard statistics. *)
Theorem animal_totals_agree (db : Db) (vars : IndexVars) :
  store_wf (db_store db) →
  index_try db = Return vars →
  sum_list (snd <$> animais_por_proprietario (db_store db))
    = sum_list (lote_quantidade <$> lotes (db_store db))
  ∧ sum_list (snd <$> animais_por_raca (db_store db))
    = sum_list (lote_quantidade <$> lotes (db_store db))
  ∧ quantidade_total vars
    = sum_list (lote_quantidade <$> lotes (db_store db)).
Proof.
  intros Hwf Hidx. split_and!.
  - by apply q1_total_wf.
  - unfold animais_por_raca. rewrite <-list_fmap_compose.
    by apply q2_total_wf.
  - unfold index_try, execute in Hidx.
    repeat match type of Hidx with
           | context [db_fault db ?op] => destruct (db_fault db op); [done|]
           end.
    cbn [mbind Exc_bind] in Hidx. injection Hidx as <-.
    cbn [quantidade_total]. apply or_0_SUM.
Qed.

Lemma animal_totals_agree_witness :
  store_wf (db_store healthy_db)
  ∧ sum_list (snd <$> animais_por_proprietario (db_store healthy_db)) = 20
  ∧ sum_list (snd <$> animais_por_raca (db_store healthy_db))
    = sum_list (lote_quantidade <$> lotes (db_store healthy_db)).
Proof.
  assert (store_wf (db_store healthy_db)) as Hwf by solve_by_compute.
  split; [exact Hwf|].
  destruct (index_try healthy_db) as [vars|] eqn:Hidx; [|discriminate Hidx].
  destruct (animal_totals_agree healthy_db vars Hwf Hidx) as (H1 & H2 & _).
  split; [exact H1 | exact H2].
Defined.

(** X2. When every Owner id is distinct and every Property names a
    stored Owner, the hectares of Query C add up to the total area of all
    Properties: no Property is counted twice or left out. *)
Theorem query_c_total_area (st : Store) :
  NoDup (dono_id <$> donos st) →
  Forall (λ p, prop_dono_id p ∈ dono_id <$> donos st) (propriedades st) →
  sum_list (snd <$> area_por_proprietario st)
  = sum_list (prop_area_total_ha <$> propriedades st).
Proof.
  intros Hd Hfk. unfold area_por_proprietario. rewrite q3_total_join.
  unfold spec_total_hectares, spec_owner_properties.
  rewrite (sum_join dono_id prop_dono_id prop_area_total_ha) by done.
  by rewrite Forall_filter_all.
Qed.

Lemma query_c_total_area_witness :
  NoDup (dono_id <$> donos ana_store)
  ∧ Forall (λ p, prop_dono_id p ∈ dono_id <$> donos ana_store)
      (propriedades ana_store)
  ∧ sum_list (snd <$> area_por_proprietario ana_store)
    = sum_list (prop_area_total_ha <$> propriedades ana_store).
Proof.
  assert (NoDup (dono_id <$> donos ana_store)) as Hnd by solve_by_compute.
  assert (Forall (λ p, prop_dono_id p ∈ dono_id <$> donos ana_store)
            (propriedades ana_store)) as Hfk by solve_by_compute.
  split; [exact Hnd|]. split; [exact Hfk|].
  exact (query_c_total_area ana_store Hnd Hfk).
Defined.

Lemma COUNT_remove_dups {A} `{EqDecision A} (l : list A) :
  COUNT (remove_dups l) ≤ COUNT l.
Proof.
  unfold COUNT. apply inj_le, submseteq_length, NoDup_submseteq.
  - apply NoDup_remove_dups.
  - intros x. by rewrite elem_of_remove_dups.
Qed.

Lemma COUNT_omap {A B} (f : A → option B) (l : list A) :
  COUNT (omap f l) ≤ COUNT l.
Proof.
  unfold COUNT. apply inj_le.
  induction l as [|x l IH]; [done|]. cbn [omap list_omap length].
  destruct (f x); cbn [length]; lia.
Qed.

(** X3. Query D lists every state that has a Property exactly once, and
    every listed state has at least one farm. *)
Theorem query_d_one_group_per_state (st : Store) :
  (q4 st).*1 ≡ₚ remove_dups (prop_estado <$> propriedades st)
  ∧ NoDup (q4 st).*1
  ∧ (∀ r, r ∈ q4 st → 1 ≤ r.2).
Proof.
  assert ((q4 st).*1 ≡ₚ remove_dups (prop_estado <$> propriedades st)) as Hperm.
  { unfold q4, q4_groups. rewrite <-list_fmap_compose.
    rewrite order_by_desc_Permutation.
    by rewrite <-(group_by_keys prop_estado). }
  split_and!.
  - done.
  - rewrite Hperm. apply NoDup_remove_dups.
  - intros [k n] [Hk Hn]%q4_rows. cbn [fst snd] in *. subst n.
    apply list_elem_of_fmap in Hk as (p & -> & Hp).
    assert (p ∈ filter (λ p', prop_estado p' = prop_estado p) (propriedades st))
      as Hin by by apply list_elem_of_filter.
    unfold COUNT.
    destruct (filter _ (propriedades st)) as [|p' ps]; [by apply elem_of_nil in Hin|].
    cbn [length]. lia.
Qed.

Lemma bind_all_nil {A B} (f : A → list B) (l : list A) :
  (∀ x, f x = []) → l ≫= f = [].
Proof.
  intros Hf. induction l as [|x l IH]; [done|].
  by rewrite bind_cons, Hf, IH.
Qed.

(** X4. Empty tables give empty reports, not errors and not zero rows:
    without Batches Queries A and B are empty, without Properties Queries
    A, C and D are empty, without Owners Queries A and C are empty, and
    without AnimalKinds Query B is empty. *)
Theorem empty_tables_empty_reports (st : Store) :
  (lotes st = [] →
     animais_por_proprietario st = [] ∧ animais_por_raca st = [])
  ∧ (propriedades st = [] →
     animais_por_proprietario st = [] ∧ area_por_proprietario st = []
     ∧ fazendas_por_estado st = [])
  ∧ (donos st = [] →
     animais_por_proprietario st = [] ∧ area_por_proprietario st = [])
  ∧ (animais st = [] → animais_por_raca st = []).
Proof.
  assert (q1_join st = [] → animais_por_proprietario st = []) as H1.
  { unfold animais_por_proprietario, q1. by intros ->. }
  assert (q2_join st = [] → animais_por_raca st = []) as H2.
  { unfold animais_por_raca, q2, q2_groups. by intros ->. }
  assert (q3_join st = [] → area_por_proprietario st = []) as H3.
  { unfold area_por_proprietario, q3. by intros ->. }
  split_and!.
  - intros Hl. split.
    + apply H1. unfold q1_join. rewrite Hl.
      apply bind_all_nil. intros d. by apply bind_all_nil.
    + apply H2. unfold q2_join. rewrite Hl. by apply bind_all_nil.
  - intros Hp. split_and!.
    + apply H1. unfold q1_join. rewrite Hp. by apply bind_all_nil.
    + apply H3. unfold q3_join. rewrite Hp. by apply bind_all_nil.
    + unfold fazendas_por_estado, q4, q4_groups. by rewrite Hp.
  - intros Hd. split.
    + apply H1. unfold q1_join. by rewrite Hd.
    + apply H3. unfold q3_join. by rewrite Hd.
  - intros Ha. apply H2. unfold q2_join. by rewrite Ha.
Qed.

Lemma or_nao_informado_nonempty (v : option string) : or_nao_informado v ≠ "".
Proof. by destruct v as [[|c v]|]. Qed.

(** X5. The breed and state labels of the bundle are never the empty
    string; and when no Property has an empty state, as for the Properties
    created through the form, the labels of Query D are the stored states
    themselves. *)
Theorem bundle_labels (st : Store) :
  (∀ r, r ∈ animais_por_raca st → r.1 ≠ "")
  ∧ (∀ r, r ∈ fazendas_por_estado st → r.1 ≠ "")
  ∧ (Forall (λ p, prop_estado p ≠ "") (propriedades st) →
     fazendas_por_estado st = q4 st).
Proof.
  split_and!.
  - unfold animais_por_raca. intros r (x & -> & _)%list_elem_of_fmap.
    apply or_nao_informado_nonempty.
  - unfold fazendas_por_estado. intros r (x & -> & _)%list_elem_of_fmap.
    apply or_nao_informado_nonempty.
  - intros Hne. unfold fazendas_por_estado.
    rewrite <-(list_fmap_id (q4 st)) at 2.
    apply Forall_fmap_ext, Forall_forall.
    intros [k n] [Hk _]%q4_rows. cbn [fst snd id] in *.
    apply list_elem_of_fmap in Hk as (p & -> & Hp).
    rewrite Forall_forall in Hne. specialize (Hne p Hp).
    by destruct (prop_estado p).
Qed.

(** * The dashboard statistics when nothing fails *)

Lemma or_0_Some (n : Z) : or_0 (Some n) = n.
Proof. by destruct n. Qed.

Lemma index_try_ok (db : Db) :
  Forall (λ op, db_fault db op = None) index_ops →
  ∃ vars, index_try db = Return vars
    ∧ proprietarios_count vars = COUNT (donos (db_store db))
    ∧ propriedades_count vars = COUNT (propriedades (db_store db))
    ∧ animais_count vars = COUNT (animais (db_store db))
    ∧ lotes_count vars = COUNT (lotes (db_store db))
    ∧ propriedades_ativas vars = propriedades_count vars
    ∧ lotes_ativos vars = lotes_count vars
    ∧ quantidade_total vars
      = sum_list (lote_quantidade <$> lotes (db_store db))
    ∧ tipos_animais vars
      = COUNT (remove_dups (animal_tipo <$> animais (db_store db)))
    ∧ raca_animais vars
      = COUNT (remove_dups (omap animal_raca (animais (db_store db))))
    ∧ lotes_recentes vars
      = order_by_desc (λ l, date_ord <$> lote_data_registro l)
          (lotes (db_store db)).
Proof.
  intros Hok. unfold index_ops in Hok.
  repeat (apply Forall_cons in Hok as [? Hok]).
  unfold index_try. rewrite !execute_ok by done. cbn [mbind Exc_bind].
  eexists. split; [reflexivity|].
  cbn [proprietarios_count propriedades_count propriedades_ativas animais_count
       tipos_animais lotes_count raca_animais lotes_ativos quantidade_total
       lotes_recentes].
  rewrite or_0_SUM, !or_0_Some. done.
Qed.

(** X6. For a logged-in caller, when no statistic fails, the dashboard
    is rendered without any flashed message; its counts are the numbers of
    rows of the four tables, the "active" Properties and Batches are all
    of them, the distinct-type and distinct-breed counts do not exceed the
    number of AnimalKinds (a null breed is not counted), and the list of
    Batches holds every Batch once, most recent registration date first
    and the Batches without a date last. *)
Theorem index_statistics (db : Db) (req : Request) (s : Session) :
  session_keys s !! "user" ≠ None →
  Forall (λ op, db_fault db op = None) index_ops →
  ∃ vars,
    index db req s = (db, s, index_render vars)
    ∧ proprietarios_count vars = COUNT (donos (db_store db))
    ∧ propriedades_count vars = COUNT (propriedades (db_store db))
    ∧ animais_count vars = COUNT (animais (db_store db))
    ∧ lotes_count vars = COUNT (lotes (db_store db))
    ∧ propriedades_ativas vars = propriedades_count vars
    ∧ lotes_ativos vars = lotes_count vars
    ∧ tipos_animais vars ≤ animais_count vars
    ∧ raca_animais vars
      ≤ COUNT (filter (λ a, animal_raca a ≠ None) (animais (db_store db)))
    ∧ lotes_recentes vars ≡ₚ lotes (db_store db)
    ∧ Sorted (desc (λ l, date_ord <$> lote_data_registro l))
        (lotes_recentes vars).
Proof.
  intros Huser (vars & Htry & Hd & Hp & Ha & Hl & Hpa & Hla & _ & Ht & Hr & Hrec)
    %index_try_ok.
  exists vars. split_and!; try done.
  - unfold index, login_required. rewrite decide_False by done.
    by rewrite Htry.
  - rewrite Ht, Ha. etrans; [apply COUNT_remove_dups|].
    unfold COUNT. by rewrite length_fmap.
  - rewrite Hr. etrans; [apply COUNT_remove_dups|].
    unfold COUNT. apply inj_le. clear.
    induction (animais (db_store db)) as [|a l IH]; [done|].
    cbn [omap list_omap]. rewrite filter_cons.
    destruct (animal_raca a) as [v|] eqn:Hv.
    + rewrite decide_True by done. cbn [length]. lia.
    + rewrite decide_False by (by intros []). done.
  - rewrite Hrec. apply order_by_desc_Permutation.
  - rewrite Hrec. apply order_by_desc_Sorted.
Qed.

Lemma index_statistics_witness :
  session_keys bob_session !! "user" ≠ None
  ∧ Forall (λ op, db_fault healthy_db op = None) index_ops
  ∧ ∃ vars,
      index healthy_db (mkRequest ∅) bob_session
      = (healthy_db, bob_session, index_render vars)
      ∧ lotes_recentes vars ≡ₚ lotes (db_store healthy_db).
Proof.
  assert (session_keys bob_session !! "user" ≠ None) as Huser by discriminate.
  assert (Forall (λ op, db_fault healthy_db op = None) index_ops) as Hok
    by (by repeat constructor).
  split; [exact Huser|]. split; [exact Hok|].
  destruct (index_statistics healthy_db (mkRequest ∅) bob_session Huser Hok)
    as (vars & Hidx & _ & _ & _ & _ & _ & _ & _ & _ & Hperm & _).
  exists vars. split; [exact Hidx | exact Hperm].
Defined.

(** * The creation handlers and the declared keys *)

Lemma next_id_above (ids : list Z) (x : Z) : x ∈ ids → x < next_id ids.
Proof.
  unfold next_id. induction ids as [|y ids IH]; intros Hx.
  { by apply elem_of_nil in Hx. }
  cbn [foldr]. apply elem_of_cons in Hx as [->|Hx]; [lia|].
  specialize (IH Hx). lia.
Qed.

Lemma next_id_fresh (ids : list Z) : next_id ids ∉ ids.
Proof. intros Hin%next_id_above. lia. Qed.

Lemma NoDup_snoc_fresh {A} (l : list A) (x : A) :
  NoDup l → x ∉ l → NoDup (l ++ [x]).
Proof.
  intros Hnd Hx. apply NoDup_app. split_and!; [done| |apply NoDup_singleton].
  intros y Hy ->%list_elem_of_singleton. done.
Qed.

Lemma store_wf_add_dono (st : Store) (d : Dono) :
  store_wf st →
  dono_id d ∉ dono_id <$> donos st →
  dono_cpf_cnpj d ∉ dono_cpf_cnpj <$> donos st →
  store_wf (mkStore (donos st ++ [d]) (propriedades st) (animais st) (lotes st)).
Proof.
  intros (Hd & Hc & Hp & Ha & Hl & Hfp & Hfl) Hid Hcpf.
  unfold store_wf. cbn [donos propriedades animais lotes].
  rewrite !fmap_app. split_and!; try done.
  - by apply NoDup_snoc_fresh.
  - by apply NoDup_snoc_fresh.
  - eapply Forall_impl; [exact Hfp|]. intros p Hin. apply elem_of_app. by left.
Qed.

Lemma store_wf_add_propriedade (st : Store) (p : Propriedade) :
  store_wf st →
  prop_id p ∉ prop_id <$> propriedades st →
  prop_dono_id p ∈ dono_id <$> donos st →
  store_wf (mkStore (donos st) (propriedades st ++ [p]) (animais st) (lotes st)).
Proof.
  intros (Hd & Hc & Hp & Ha & Hl & Hfp & Hfl) Hid Hfk.
  unfold store_wf. cbn [donos propriedades animais lotes].
  rewrite !fmap_app. split_and!; try done.
  - by apply NoDup_snoc_fresh.
  - apply Forall_app. split; [done|]. by apply Forall_singleton.
  - eapply Forall_impl; [exact Hfl|]. intros l [Hin ?]. split; [|done].
    apply elem_of_app. by left.
Qed.

Lemma store_wf_add_animal (st : Store) (a : Animal) :
  store_wf st →
  animal_id a ∉ animal_id <$> animais st →
  store_wf (mkStore (donos st) (propriedades st) (animais st ++ [a]) (lotes st)).
Proof.
  intros (Hd & Hc & Hp & Ha & Hl & Hfp & Hfl) Hid.
  unfold store_wf. cbn [donos propriedades animais lotes].
  rewrite !fmap_app. split_and!; try done.
  - by apply NoDup_snoc_fresh.
  - eapply Forall_impl; [exact Hfl|]. intros l [? Hin]. split; [done|].
    apply elem_of_app. by left.
Qed.

Lemma store_wf_add_lote (st : Store) (l : Lote) :
  store_wf st →
  lote_id l ∉ lote_id <$> lotes st →
  lote_propriedade_id l ∈ prop_id <$> propriedades st →
  lote_animal_id l ∈ animal_id <$> animais st →
  store_wf (mkStore (donos st) (propriedades st) (animais st) (lotes st ++ [l])).
Proof.
  intros (Hd & Hc & Hp & Ha & Hl & Hfp & Hfl) Hid Hfkp Hfka.
  unfold store_wf. cbn [donos propriedades animais lotes].
  rewrite !fmap_app. split_and!; try done.
  - by apply NoDup_snoc_fresh.
  - apply Forall_app. split; [done|]. by apply Forall_singleton.
Qed.

Section creation_outcomes.
Context `{PyLib, SqlNumeric}.

(** What a request to [cadastrarProprietario] can come to. *)
Lemma cadastrarProprietario_outcome (db : Db) (req : Request) (s : Session) :
  ∃ cat msg target,
    (cadastrarProprietario db req s).1.2 = flash msg cat s
    ∧ (cadastrarProprietario db req s).2 = Redirect target
    ∧ (((cadastrarProprietario db req s).1.1 = db ∧ cat ≠ "success")
       ∨ (∃ d, dono_id d = next_id (dono_id <$> donos (db_store db))
               ∧ dono_nome d ≠ "" ∧ dono_cpf_cnpj d ≠ ""
               ∧ (dono_cpf_cnpj d ∉ dono_cpf_cnpj <$> donos (db_store db))
               ∧ (cadastrarProprietario db req s).1.1
                 = set_donos db (donos (db_store db) ++ [d])
               ∧ cat = "success")).
Proof.
  unfold cadastrarProprietario, login_required.
  destruct (decide (session_keys s !! "user" = None)).
  { do 3 eexists. split_and!; [done..|]. left. by split. }
  set (nome := py_strip (default "" (req_form req !! "nome"))).
  set (cpf := py_strip (default "" (req_form req !! "cpf_cnpj"))).
  set (tel := py_strip (default "" (req_form req !! "telefone"))).
  set (email := py_strip (default "" (req_form req !! "email"))).
  destruct (decide (nome = "" ∨ cpf = "")) as [|Hne].
  { do 3 eexists. split_and!; [done..|]. left. by split. }
  unfold commit_dono. destruct (db_fault db OpCommit).
  { do 3 eexists. split_and!; [done..|]. left. by split. }
  destruct (decide (cpf ∈ dono_cpf_cnpj <$> donos (db_store db))).
  { do 3 eexists. split_and!; [done..|]. left. by split. }
  do 3 eexists. split_and!; [done..|]. right.
  eexists (mkDono _ nome cpf (Some email) (Some tel)).
  split_and!; try done; cbn [dono_nome dono_cpf_cnpj]; tauto.
Qed.


(** X8. [cadastrarProprietario] keeps the declared keys: from a store in
    which ids and tax-ids are unique and references resolve, every request
    leaves such a store. *)
Theorem cadastrarProprietario_keeps_keys (db : Db) (req : Request)
    (s : Session) :
  store_wf (db_store db) →
  store_wf (db_store (cadastrarProprietario db req s).1.1).
Proof.
  intros Hwf.
  destruct (cadastrarProprietario_outcome db req s)
    as (cat & msg & target & _ & _ & [[-> _]|(d & Hid & _ & _ & Hcpf & -> & _)]);
    [done|].
  apply (store_wf_add_dono _ d); [done| |done].
  rewrite Hid. apply next_id_fresh.
Qed.

End creation_outcomes.

Lemma cadastrarProprietario_keeps_keys_witness :
  store_wf (db_store healthy_db)
  ∧ store_wf
      (db_store
         (@cadastrarProprietario ascii_pylib healthy_db new_owner_form
            bob_session).1.1)
  ∧ length
      (donos (db_store
         (@cadastrarProprietario ascii_pylib healthy_db new_owner_form
            bob_session).1.1)) = 2%nat.
Proof.
  assert (store_wf (db_store healthy_db)) as Hwf by solve_by_compute.
  split; [exact Hwf|]. split; [|reflexivity].
  exact (@cadastrarProprietario_keeps_keys ascii_pylib healthy_db
           new_owner_form bob_session Hwf).
Defined.

Section owner_and_batch.
Context `{PyLib}.





(** X12. A Batch creation is refused, with one message of the category
    "danger" carrying the text of the exception, and nothing stored, when
    the quantity is not an integer, and when the Property or the
    AnimalKind named does not exist. A missing required field gives a
    "warning" instead, before anything is parsed. *)
Theorem lote_refused (db : Db) (req : Request) (s : Session) :
  session_keys s !! "user" ≠ None →
  (truthy (req_form req !! "propriedade_id") = false
   ∨ truthy (req_form req !! "animal_id") = false
   ∨ truthy (req_form req !! "quantidade") = false →
   lotes_post db req s
   = (db, flash "Informe propriedade, animal e quantidade." "warning" s,
      Redirect "lotes"))
  ∧ (∀ ps ks qs e,
       req_form req !! "propriedade_id" = Some ps → ps ≠ "" →
       req_form req !! "animal_id" = Some ks → ks ≠ "" →
       req_form req !! "quantidade" = Some qs → qs ≠ "" →
       py_int qs = Raise e →
       lotes_post db req s
       = (db, flash ("Erro ao registrar lote: " +:+ str e) "danger" s,
          Redirect "lotes"))
  ∧ (∀ ps ks qs p a q,
       req_form req !! "propriedade_id" = Some ps → ps ≠ "" →
       req_form req !! "animal_id" = Some ks → ks ≠ "" →
       req_form req !! "quantidade" = Some qs → qs ≠ "" →
       py_int ps = Return p → py_int ks = Return a → py_int qs = Return q →
       db_fault db OpCommit = None →
       p ∉ prop_id <$> propriedades (db_store db)
       ∨ a ∉ animal_id <$> animais (db_store db) →
       ∃ msg,
         lotes_post db req s
         = (db, flash ("Erro ao registrar lote: " +:+ msg) "danger" s,
            Redirect "lotes")).
Proof.
  intros Huser. unfold lotes_post, login_required.
  rewrite decide_False by done. split_and!.
  - intros Hmiss.
    destruct (truthy (req_form req !! "propriedade_id")),
      (truthy (req_form req !! "animal_id")),
      (truthy (req_form req !! "quantidade")); try done.
    by destruct Hmiss as [?|[?|?]].
  - intros ps ks qs e Hp Hpne Hk Hkne Hq Hqne Hqi.
    rewrite Hp, Hk, Hq, !truthy_nonempty by done.
    change (default "" (Some qs)) with qs. by rewrite Hqi.
  - intros ps ks qs p a q Hp Hpne Hk Hkne Hq Hqne Hpi Hki Hqi Hok Hdangling.
    rewrite Hp, Hk, Hq, !truthy_nonempty by done.
    change (default "" (Some ps)) with ps. change (default "" (Some ks)) with ks.
    change (default "" (Some qs)) with qs.
    cbn [negb orb]. rewrite Hpi, Hki, Hqi.
    cbn [mbind Exc_bind]. unfold commit_lote. rewrite Hok.
    rewrite decide_False by tauto. by eexists.
Qed.

End owner_and_batch.

(** * AnimalKinds and Properties created through the forms *)

Lemma no_empty_breed_one_group (st : Store) :
  Forall (λ a, animal_raca a ≠ Some "") (animais st) →
  one_absent_breed_group st.
Proof.
  intros Hne r1 r2 Hr1 Hr2 Ha1 Ha2. apply (q2_functional st); [done..|].
  assert (∀ r, r ∈ q2 st → breed_absent r.1 → r.1 = None) as Hnone.
  { intros r [Hr _]%q2_rows [Hn|He]; [done|].
    apply q2_join_breed in Hr as (a & Ha & Hraca).
    rewrite Forall_forall in Hne. destruct (Hne a Ha). congruence. }
  by rewrite (Hnone r1), (Hnone r2).
Qed.

Section kinds_and_properties.
Context `{PyLib, SqlNumeric}.

Lemma animais_post_outcome (db : Db) (req : Request) (s : Session) :
  ∃ cat msg,
    (animais_post db req s).1.2 = flash msg cat s
    ∧ ((animais_post db req s).2 = Redirect "animais"
       ∨ (animais_post db req s).2 = Redirect "login")
    ∧ (((animais_post db req s).1.1 = db ∧ cat ≠ "success")
       ∨ (∃ a, animal_id a = next_id (animal_id <$> animais (db_store db))
               ∧ animal_tipo a ≠ "" ∧ animal_raca a ≠ Some ""
               ∧ (animais_post db req s).1.1
                 = set_animais db (animais (db_store db) ++ [a])
               ∧ cat = "success")).
Proof.
  unfold animais_post, login_required.
  destruct (decide (session_keys s !! "user" = None)).
  { do 2 eexists. split_and!; [done|by right|]. left. by split. }
  set (tipo := py_strip (default "" (req_form req !! "tipo"))).
  set (raca := py_strip (default "" (req_form req !! "raca"))).
  destruct (decide (tipo = "")).
  { do 2 eexists. split_and!; [done|by left|]. left. by split. }
  unfold commit_animal. destruct (db_fault db OpCommit).
  { do 2 eexists. split_and!; [done|by left|]. left. by split. }
  do 2 eexists. split_and!; [done|by left|]. right.
  eexists (mkAnimal _ tipo _). split_and!; try done.
  cbn [animal_raca]. destruct (decide (raca = "")); congruence.
Qed.

(** X13. Every request to [animais_post] flashes exactly one message,
    stores at most one new AnimalKind and nothing else, and keeps the
    declared keys. It never stores the empty string as a breed (a blank
    breed is stored as null): if no stored AnimalKind has an empty-string
    breed before the request, none has afterwards, and Query B then still
    has at most one group of absent breed. *)
Theorem animais_post_keeps_breeds (db : Db) (req : Request) (s : Session) :
  (∃ cat msg target new,
     animais_post db req s
     = (set_animais db (animais (db_store db) ++ new), flash msg cat s,
        Redirect target)
     ∧ (length new ≤ 1)%nat
     ∧ (new ≠ [] ↔ cat = "success"))
  ∧ (store_wf (db_store db) →
     store_wf (db_store (animais_post db req s).1.1))
  ∧ (Forall (λ a, animal_raca a ≠ Some "") (animais (db_store db)) →
     Forall (λ a, animal_raca a ≠ Some "")
       (animais (db_store (animais_post db req s).1.1))
     ∧ one_absent_breed_group (db_store (animais_post db req s).1.1)).
Proof.
  destruct (animais_post_outcome db req s) as (cat & msg & Hs & Hr & Hdb).
  destruct (animais_post db req s) as [[db' s'] r'].
  cbn [fst snd] in *. subst s'.
  assert (∃ target, r' = Redirect target) as [target ->]
    by (destruct Hr; eauto).
  destruct Hdb as [[-> Hcat]|(a & Hid & Htipo & Hraca & -> & ->)].
  - split_and!; [|done|].
    + exists cat, msg, target, []. split_and!; [|cbn [length]; lia|].
      * rewrite app_nil_r. by destruct db as [[]].
      * split; [done|]. intros Hsuccess. by destruct Hcat.
    + intros Hne. split; [done|]. by apply no_empty_breed_one_group.
  - split_and!.
    + exists "success", msg, target, [a].
      split_and!; [done|cbn [length]; lia|done].
    + intros Hwf. apply (store_wf_add_animal _ a); [done|].
      rewrite Hid. apply next_id_fresh.
    + intros Hne.
      assert (Forall (λ a, animal_raca a ≠ Some "")
                (animais (db_store db) ++ [a])) as Hne'.
      { apply Forall_app. split; [done|]. by apply Forall_singleton. }
      split; [done|]. by apply no_empty_breed_one_group.
Qed.


Lemma propriedades_post_outcome (db : Db) (req : Request) (s : Session) :
  ∃ cat msg,
    (propriedades_post db req s).1.2 = flash msg cat s
    ∧ ((propriedades_post db req s).2 = Redirect "propriedades"
       ∨ (propriedades_post db req s).2 = Redirect "login")
    ∧ (((propriedades_post db req s).1.1 = db ∧ cat ≠ "success")
       ∨ (∃ p, prop_id p = next_id (prop_id <$> propriedades (db_store db))
               ∧ prop_nome p ≠ "" ∧ prop_municipio p ≠ "" ∧ prop_estado p ≠ ""
               ∧ prop_dono_id p ∈ dono_id <$> donos (db_store db)
               ∧ (propriedades_post db req s).1.1
                 = set_propriedades db (propriedades (db_store db) ++ [p])
               ∧ cat = "success")).
Proof.
  unfold propriedades_post, login_required.
  destruct (decide (session_keys s !! "user" = None)).
  { do 2 eexists. split_and!; [done|by right|]. left. by split. }
  set (nome := py_strip (default "" (req_form req !! "nome"))).
  set (municipio := py_strip (default "" (req_form req !! "municipio"))).
  set (estado := py_strip (default "" (req_form req !! "estado"))).
  destruct (bool_decide (nome = "" ∨ municipio = "" ∨ estado = "")) eqn:Hblank;
    cbn [orb].
  { do 2 eexists. split_and!; [done|by left|]. left. by split. }
  apply bool_decide_eq_false in Hblank.
  destruct (negb (truthy (req_form req !! "area_total"))
            || negb (truthy (req_form req !! "dono_id"))).
  { do 2 eexists. split_and!; [done|by left|]. left. by split. }
  destruct (py_int (default "" (req_form req !! "dono_id"))) as [d|];
    cbn [mbind Exc_bind try_except].
  2:{ do 2 eexists. split_and!; [done|by left|]. left. by split. }
  unfold commit_propriedade. destruct (db_fault db OpCommit).
  { do 2 eexists. split_and!; [done|by left|]. left. by split. }
  destruct (to_numeric_10_2 (default "" (req_form req !! "area_total")))
    as [area|]; cbn [mbind Exc_bind try_except].
  2:{ do 2 eexists. split_and!; [done|by left|]. left. by split. }
  destruct (decide (d ∈ dono_id <$> donos (db_store db))).
  2:{ do 2 eexists. split_and!; [done|by left|]. left. by split. }
  do 2 eexists. split_and!; [done|by left|]. right.
  eexists (mkPropriedade _ nome municipio estado area d).
  split_and!; try done; cbn [prop_nome prop_municipio prop_estado]; tauto.
Qed.

(** X15. Every request to [propriedades_post] flashes exactly one
    message, stores at most one new Property and nothing else, and keeps
    the declared keys: the Property it stores has a fresh id and names a
    stored Owner. It never stores a Property with an empty state: if no
    stored Property has an empty state before the request, none has
    afterwards. *)
Theorem propriedades_post_keeps_keys (db : Db) (req : Request) (s : Session) :
  (∃ cat msg target new,
     propriedades_post db req s
     = (set_propriedades db (propriedades (db_store db) ++ new),
        flash msg cat s, Redirect target)
     ∧ (length new ≤ 1)%nat
     ∧ (new ≠ [] ↔ cat = "success"))
  ∧ (store_wf (db_store db) →
     store_wf (db_store (propriedades_post db req s).1.1))
  ∧ (Forall (λ p, prop_estado p ≠ "") (propriedades (db_store db)) →
     Forall (λ p, prop_estado p ≠ "")
       (propriedades (db_store (propriedades_post db req s).1.1))).
Proof.
  destruct (propriedades_post_outcome db req s) as (cat & msg & Hs & Hr & Hdb).
  destruct (propriedades_post db req s) as [[db' s'] r'].
  cbn [fst snd] in *. subst s'.
  assert (∃ target, r' = Redirect target) as [target ->]
    by (destruct Hr; eauto).
  destruct Hdb as [[-> Hcat]|(p & Hid & _ & _ & Hestado & Hfk & -> & ->)].
  - split_and!; [|done..].
    exists cat, msg, target, []. split_and!; [|cbn [length]; lia|].
    + rewrite app_nil_r. by destruct db as [[]].
    + split; [done|]. intros Hsuccess. by destruct Hcat.
  - split_and!.
    + exists "success", msg, target, [p].
      split_and!; [done|cbn [length]; lia|done].
    + intros Hwf. apply (store_wf_add_propriedade _ p); [done| |done].
      rewrite Hid. apply next_id_fresh.
    + intros Hne. cbn [set_propriedades db_store propriedades].
      apply Forall_app. split; [done|]. by apply Forall_singleton.
Qed.


End kinds_and_properties.

(** * Users and sessions *)

Section users.
Context `{PyLib}.

Lemma find_usuario_ok (adb : AuthDb) (username : string) :
  auth_fault adb OpFindUsuario = None →
  find_usuario adb username
  = Return (head (filter (λ u, usuario_username u = username)
                    (auth_usuarios adb))).
Proof. unfold find_usuario. by intros ->. Qed.

Lemma head_filter_Some {A} (P : A → Prop) `{∀ x, Decision (P x)}
    (l : list A) (x : A) :
  head (filter P l) = Some x → x ∈ l ∧ P x.
Proof.
  intros Hhd. assert (x ∈ filter P l) as Hin.
  { destruct (filter P l) as [|y l']; [done|].
    injection Hhd as ->. left. }
  apply list_elem_of_filter in Hin. tauto.
Qed.

(** X17. [login_post] sets the session user only on matching
    credentials: after any request either the session keys are as before,
    or the user key is the stripped user name of the form and a stored
    user has that name and exactly the password of the form, the response
    being the redirect to the dashboard. Either way exactly one message is
    flashed. *)
Theorem login_only_with_credentials (adb : AuthDb) (req : Request)
    (s : Session) :
  ∃ cat msg,
    session_flashes (login_post adb req s).1
      = (session_flashes s ++ [(cat, msg)])%list
    ∧ ((session_keys (login_post adb req s).1 = session_keys s
        ∧ (login_post adb req s).2 = Redirect "login")
       ∨ (∃ u, u ∈ auth_usuarios adb
               ∧ usuario_username u
                 = py_strip (default "" (req_form req !! "username"))
               ∧ usuario_username u ≠ ""
               ∧ req_form req !! "password" = Some (usuario_password u)
               ∧ session_keys (login_post adb req s).1
                 = <["user" := usuario_username u]> (session_keys s)
               ∧ (login_post adb req s).2 = Redirect "index")).
Proof.
  unfold login_post.
  set (username := py_strip (default "" (req_form req !! "username"))).
  destruct (decide (username = "" ∨ default "" (req_form req !! "password") = ""))
    as [|Hne].
  { do 2 eexists. split; [done|]. by left. }
  unfold find_usuario. destruct (auth_fault adb OpFindUsuario).
  { do 2 eexists. split; [done|]. by left. }
  cbn [mbind Exc_bind].
  destruct (head _) as [u|] eqn:Hhd.
  2:{ do 2 eexists. split; [done|]. by left. }
  apply head_filter_Some in Hhd as [Hin Hname].
  destruct (decide (usuario_password u = _)) as [Hpw|].
  2:{ do 2 eexists. split; [done|]. by left. }
  do 2 eexists. split; [done|]. right. exists u.
  split_and!; try done.
  - rewrite Hname. tauto.
  - destruct (req_form req !! "password") as [pw|]; cbn [default] in *.
    + change (default "" (Some pw)) with pw in Hpw. by rewrite Hpw.
    + exfalso. apply Hne. by right.
  - cbn. by rewrite Hname.
Qed.

(** X18. With the user name (after stripping) and the password of a
    stored user whose name is unique, [login_post] logs the caller in: the
    session holds the user, the login-gated views then run as if
    undecorated, and the root route leads to the dashboard. *)
Theorem login_opens_gated_views (adb : AuthDb) (req : Request) (s : Session)
    (u : Usuario) :
  NoDup (usuario_username <$> auth_usuarios adb) →
  u ∈ auth_usuarios adb →
  py_strip (default "" (req_form req !! "username")) = usuario_username u →
  req_form req !! "password" = Some (usuario_password u) →
  usuario_username u ≠ "" → usuario_password u ≠ "" →
  auth_fault adb OpFindUsuario = None →
  login_post adb req s
  = (flash "Login efetuado com sucesso." "success"
       (set_user (usuario_username u) s),
     Redirect "index")
  ∧ (∀ (f : View) db req',
       login_required f db req' (login_post adb req s).1
       = f db req' (login_post adb req s).1)
  ∧ main_route (login_post adb req s).1 = Redirect "index".
Proof.
  intros Hnd Hu Hname Hpw Hune Hpne Hok.
  assert (login_post adb req s
          = (flash "Login efetuado com sucesso." "success"
               (set_user (usuario_username u) s),
             Redirect "index")) as Hlogin.
  { unfold login_post. rewrite Hname, Hpw.
    change (default "" (Some (usuario_password u))) with (usuario_password u).
    rewrite decide_False by tauto.
    rewrite find_usuario_ok by done. cbn [mbind Exc_bind].
    destruct (head _) as [u'|] eqn:Hhd.
    - apply head_filter_Some in Hhd as [Hin' Hname'].
      assert (u' = u) as ->
        by by apply (NoDup_fmap_inj_on usuario_username (auth_usuarios adb)).
      by rewrite decide_True.
    - exfalso.
      assert (u ∈ filter (λ u', usuario_username u' = usuario_username u)
                    (auth_usuarios adb)) as Hin
        by by apply list_elem_of_filter.
      destruct (filter _ (auth_usuarios adb)); [by apply elem_of_nil in Hin|done]. }
  rewrite Hlogin. cbn [fst snd]. split_and!; [done| |].
  - intros f db req'. unfold login_required.
    rewrite decide_False; [done|].
    cbn [flash set_user session_keys]. by rewrite lookup_insert_eq.
  - unfold main_route. rewrite decide_False; [done|].
    cbn [flash set_user session_keys]. by rewrite lookup_insert_eq.
Qed.

(** X19. After [logout], whatever the session was, no user is logged
    in: every login-gated view answers with the redirect to the login page
    without running (the store is untouched), the root route leads to the
    login page, the other session keys are kept, and one message of the
    category "info" has been flashed. *)
Theorem logout_closes_gated_views (s : Session) :
  (logout s).2 = Redirect "login"
  ∧ session_keys (logout s).1 !! "user" = None
  ∧ (∀ k, k ≠ "user" → session_keys (logout s).1 !! k = session_keys s !! k)
  ∧ session_flashes (logout s).1
    = (session_flashes s ++ [("info", "Você saiu da aplicação.")])%list
  ∧ (∀ (f : View) db req,
       login_required f db req (logout s).1
       = (db,
          flash "Faça login para acessar esta página." "warning" (logout s).1,
          Redirect "login"))
  ∧ main_route (logout s).1 = Redirect "login".
Proof.
  assert (session_keys (logout s).1 !! "user" = None) as Hnone.
  { cbn. apply lookup_delete_eq. }
  split_and!; try done.
  - intros k Hk. cbn. by rewrite lookup_delete_ne.
  - intros f db req. unfold login_required. by rewrite decide_True.
  - unfold main_route. by rewrite decide_True.
Qed.

Lemma register_post_outcome (adb : AuthDb) (req : Request) (s : Session) :
  ∃ cat msg target,
    (register_post adb req s).1.2 = flash msg cat s
    ∧ (register_post adb req s).2 = Redirect target
    ∧ (((register_post adb req s).1.1 = adb ∧ cat ≠ "success")
       ∨ (∃ u, usuario_id u = next_id (usuario_id <$> auth_usuarios adb)
               ∧ usuario_username u
                 = py_strip (default "" (req_form req !! "username"))
               ∧ req_form req !! "password" = Some (usuario_password u)
               ∧ usuario_username u ≠ "" ∧ usuario_password u ≠ ""
               ∧ (usuario_username u ∉ usuario_username <$> auth_usuarios adb)
               ∧ (register_post adb req s).1.1
                 = mkAuthDb (auth_usuarios adb ++ [u]) (auth_fault adb)
               ∧ cat = "success" ∧ target = "login")).
Proof.
  unfold register_post.
  set (username := py_strip (default "" (req_form req !! "username"))).
  destruct (decide (username = "" ∨ default "" (req_form req !! "password") = ""))
    as [|Hne].
  { do 3 eexists. split_and!; [done..|]. left. by split. }
  unfold find_usuario. destruct (auth_fault adb OpFindUsuario).
  { do 3 eexists. split_and!; [done..|]. left. by split. }
  cbn [mbind Exc_bind]. destruct (head _) as [u'|].
  { do 3 eexists. split_and!; [done..|]. left. by split. }
  unfold commit_usuario. destruct (auth_fault adb OpCommitUsuario).
  { do 3 eexists. split_and!; [done..|]. left. by split. }
  destruct (decide (username ∈ usuario_username <$> auth_usuarios adb)).
  { do 3 eexists. split_and!; [done..|]. left. by split. }
  do 3 eexists. split_and!; [done..|]. right.
  eexists (mkUsuario _ username _).
  split_and!; try done; cbn [usuario_username usuario_password]; try tauto.
  destruct (req_form req !! "password") as [pw|]; [done|].
  exfalso. apply Hne. by right.
Qed.

(** X20. Every request to [register_post] flashes exactly one message
    and stores at most one new user; it keeps ids and user names unique;
    and a non-empty user name that is already taken is refused with the
    "warning" "Usuário já existe. Escolha outro.", nothing being stored. *)
Theorem register_keeps_usernames_unique (adb : AuthDb) (req : Request)
    (s : Session) :
  (∃ cat msg target new,
     register_post adb req s
     = (mkAuthDb (auth_usuarios adb ++ new) (auth_fault adb), flash msg cat s,
        Redirect target)
     ∧ (length new ≤ 1)%nat
     ∧ (new ≠ [] ↔ cat = "success"))
  ∧ (usuarios_wf adb → usuarios_wf (register_post adb req s).1.1)
  ∧ (py_strip (default "" (req_form req !! "username"))
       ∈ usuario_username <$> auth_usuarios adb →
     py_strip (default "" (req_form req !! "username")) ≠ "" →
     default "" (req_form req !! "password") ≠ "" →
     auth_fault adb OpFindUsuario = None →
     register_post adb req s
     = (adb, flash "Usuário já existe. Escolha outro." "warning" s,
        Redirect "register")).
Proof.
  split_and!.
  - destruct (register_post_outcome adb req s)
      as (cat & msg & target & Hs & Hr & Hdb).
    destruct (register_post adb req s) as [[adb' s'] r'].
    cbn [fst snd] in *. subst s' r'.
    destruct Hdb as [[-> Hcat]|(u & _ & _ & _ & _ & _ & _ & -> & -> & _)].
    + exists cat, msg, target, []. split_and!; [|cbn [length]; lia|].
      * rewrite app_nil_r. by destruct adb.
      * split; [done|]. intros Hsuccess. by destruct Hcat.
    + exists "success", msg, target, [u].
      split_and!; [done|cbn [length]; lia|done].
  - intros [Hids Hnames].
    destruct (register_post_outcome adb req s)
      as (cat & msg & target & _ & _
          & [[-> _]|(u & Hid & _ & _ & _ & _ & Hfresh & -> & _)]); [done|].
    unfold usuarios_wf. cbn [auth_usuarios]. rewrite !fmap_app.
    split; apply NoDup_snoc_fresh; try done.
    cbn [fmap list_fmap]. rewrite Hid. apply next_id_fresh.
  - intros Htaken Hune Hpw Hok. unfold register_post.
    set (username := py_strip (default "" (req_form req !! "username"))) in *.
    rewrite decide_False by tauto.
    rewrite find_usuario_ok by done. cbn [mbind Exc_bind].
    apply list_elem_of_fmap in Htaken as (u & Hname & Hu).
    assert (u ∈ filter (λ u', usuario_username u' = username)
                  (auth_usuarios adb)) as Hin
      by by apply list_elem_of_filter.
    destruct (filter _ (auth_usuarios adb)); [by apply elem_of_nil in Hin|done].
Qed.

End users.

Section register_login.
Context `{PyLib}.

(** X21. Registering and then logging in with the same form succeeds:
    for a non-empty user name that is not taken and a non-empty password,
    when the engine does not fail, [register_post] stores the user and
    sends the caller to the login page, and [login_post] on the resulting
    table, from any session, logs that user in. *)
Theorem register_then_login (adb : AuthDb) (req : Request) (s s2 : Session) :
  py_strip (default "" (req_form req !! "username")) ≠ "" →
  default "" (req_form req !! "password") ≠ "" →
  py_strip (default "" (req_form req !! "username"))
    ∉ usuario_username <$> auth_usuarios adb →
  auth_fault adb OpFindUsuario = None →
  auth_fault adb OpCommitUsuario = None →
  register_post adb req s
  = (mkAuthDb
       (auth_usuarios adb
          ++ [mkUsuario (next_id (usuario_id <$> auth_usuarios adb))
                (py_strip (default "" (req_form req !! "username")))
                (default "" (req_form req !! "password"))])
       (auth_fault adb),
     flash "Conta criada com sucesso. Faça login para continuar." "success" s,
     Redirect "login")
  ∧ login_post (register_post adb req s).1.1 req s2
    = (flash "Login efetuado com sucesso." "success"
         (set_user (py_strip (default "" (req_form req !! "username"))) s2),
       Redirect "index").
Proof.
  intros Hune Hpne Hfresh Hfind Hcommit.
  set (username := py_strip (default "" (req_form req !! "username"))) in *.
  set (password := default "" (req_form req !! "password")) in *.
  assert (filter (λ u, usuario_username u = username) (auth_usuarios adb) = [])
    as Hnone.
  { apply filter_none. intros u Hu Hname. apply Hfresh.
    rewrite <-Hname. by apply list_elem_of_fmap_2. }
  assert (register_post adb req s
          = (mkAuthDb
               (auth_usuarios adb
                  ++ [mkUsuario (next_id (usuario_id <$> auth_usuarios adb))
                        username password])
               (auth_fault adb),
             flash "Conta criada com sucesso. Faça login para continuar."
               "success" s,
             Redirect "login")) as Hreg.
  { unfold register_post. fold username password.
    rewrite decide_False by tauto.
    rewrite find_usuario_ok by done. fold username. rewrite Hnone.
    cbn [head mbind Exc_bind]. unfold commit_usuario. rewrite Hcommit.
    by rewrite decide_False. }
  split; [done|]. rewrite Hreg. cbn [fst].
  unfold login_post. fold username password.
  rewrite decide_False by tauto.
  rewrite find_usuario_ok by done. cbn [auth_usuarios].
  rewrite filter_app, Hnone, filter_cons_True by done.
  cbn [app head mbind Exc_bind usuario_password].
  by rewrite decide_True.
Qed.

End register_login.

(** ** The properties above, on the example inputs *)




Lemma lote_refused_witness :
  session_keys bob_session !! "user" ≠ None
  ∧ @lotes_post ascii_pylib healthy_db bad_quantity_batch_form bob_session
    = (healthy_db,
       flash "Erro ao registrar lote: invalid literal for int() with base 10: 'five'"
         "danger" bob_session,
       Redirect "lotes")
  ∧ ∃ msg,
      @lotes_post ascii_pylib healthy_db dangling_batch_form bob_session
      = (healthy_db, flash ("Erro ao registrar lote: " +:+ msg) "danger"
           bob_session,
         Redirect "lotes").
Proof.
  assert (session_keys bob_session !! "user" ≠ None) as Huser by discriminate.
  split; [exact Huser|].
  destruct (@lote_refused ascii_pylib healthy_db bad_quantity_batch_form
              bob_session Huser) as (_ & Hbad & _).
  destruct (@lote_refused ascii_pylib healthy_db dangling_batch_form
              bob_session Huser) as (_ & _ & Hdangling).
  split.
  - apply (Hbad "1" "1" "five"
             (OtherError "invalid literal for int() with base 10: 'five'"));
      (reflexivity || discriminate).
  - apply (Hdangling "9" "1" "5" 9 1 5);
      try (reflexivity || discriminate).
    left. solve_by_compute.
Defined.

Lemma animais_post_keeps_breeds_witness :
  Forall (λ a, animal_raca a ≠ Some "") (animais (db_store healthy_db))
  ∧ Forall (λ a, animal_raca a ≠ Some "")
      (animais (db_store
         (@animais_post ascii_pylib healthy_db new_animal_form bob_session).1.1))
  ∧ one_absent_breed_group
      (db_store
         (@animais_post ascii_pylib healthy_db new_animal_form bob_session).1.1).
Proof.
  assert (Forall (λ a, animal_raca a ≠ Some "") (animais (db_store healthy_db)))
    as Hne by solve_by_compute.
  split; [exact Hne|].
  apply (@animais_post_keeps_breeds ascii_pylib healthy_db new_animal_form
           bob_session), Hne.
Defined.


Lemma propriedades_post_keeps_keys_witness :
  store_wf (db_store healthy_db)
  ∧ store_wf
      (db_store
         (@propriedades_post ascii_pylib centi_numeric healthy_db
            new_property_form bob_session).1.1).
Proof.
  assert (store_wf (db_store healthy_db)) as Hwf by solve_by_compute.
  split; [exact Hwf|].
  apply (@propriedades_post_keeps_keys ascii_pylib centi_numeric healthy_db
           new_property_form bob_session), Hwf.
Defined.


Lemma login_opens_gated_views_witness :
  NoDup (usuario_username <$> auth_usuarios one_user_db)
  ∧ @login_post ascii_pylib one_user_db carol_form anonymous_session
    = (flash "Login efetuado com sucesso." "success"
         (set_user "carol" anonymous_session),
       Redirect "index")
  ∧ main_route (@login_post ascii_pylib one_user_db carol_form anonymous_session).1
    = Redirect "index".
Proof.
  assert (NoDup (usuario_username <$> auth_usuarios one_user_db)) as Hnd
    by solve_by_compute.
  split; [exact Hnd|].
  destruct (@login_opens_gated_views ascii_pylib one_user_db carol_form
              anonymous_session carol Hnd) as (Hlogin & _ & Hroot);
    [left | reflexivity | reflexivity | discriminate | discriminate
     | reflexivity |].
  split; [exact Hlogin | exact Hroot].
Defined.

Lemma register_keeps_usernames_unique_witness :
  usuarios_wf one_user_db
  ∧ usuarios_wf
      (@register_post ascii_pylib one_user_db dave_form anonymous_session).1.1
  ∧ @register_post ascii_pylib one_user_db carol_form anonymous_session
    = (one_user_db, flash "Usuário já existe. Escolha outro." "warning"
         anonymous_session,
       Redirect "register").
Proof.
  assert (usuarios_wf one_user_db) as Hwf by solve_by_compute.
  split; [exact Hwf|].
  split.
  - apply (@register_keeps_usernames_unique ascii_pylib one_user_db dave_form
             anonymous_session), Hwf.
  - apply (@register_keeps_usernames_unique ascii_pylib one_user_db carol_form
             anonymous_session);
      [solve_by_compute | discriminate | discriminate | reflexivity].
Defined.

Lemma register_then_login_witness :
  (@register_post ascii_pylib one_user_db dave_form anonymous_session).2
  = Redirect "login"
  ∧ @login_post ascii_pylib
      (@register_post ascii_pylib one_user_db dave_form anonymous_session).1.1
      dave_form anonymous_session
    = (flash "Login efetuado com sucesso." "success"
         (set_user "dave" anonymous_session),
       Redirect "index").
Proof.
  destruct (@register_then_login ascii_pylib one_user_db dave_form
              anonymous_session anonymous_session) as [Hreg Hlogin];
    [discriminate | discriminate | solve_by_compute | reflexivity
     | reflexivity |].
  split; [by rewrite Hreg | exact Hlogin].
Defined.

(** * A created Batch in the reports *)

Section batch_in_reports.
Context `{PyLib}.

Lemma lotes_post_valid (db : Db) (req : Request) (s : Session) (p a q : Z) :
  session_keys s !! "user" ≠ None →
  batch_fields_valid db req p a q →
  db_fault db OpCommit = None →
  ∃ d,
    lotes_post db req s
    = (set_lotes db
         (lotes (db_store db)
            ++ [mkLote (next_id (lote_id <$> lotes (db_store db))) p a q d]),
       flash "Lote registrado com sucesso." "success" s,
       Redirect "lotes").
Proof.
  intros Huser
    (ps & ks & qs & Hp & Hpne & Hpi & Hk & Hkne & Hki & Hq & Hqne & Hqi
     & Hpin & Hain) Hok.
  unfold lotes_post, login_required.
  rewrite decide_False by done.
  rewrite Hp, Hk, Hq, !truthy_nonempty by done.
  change (default "" (Some ps)) with ps. change (default "" (Some ks)) with ks.
  change (default "" (Some qs)) with qs.
  cbn [negb orb]. rewrite Hpi, Hki, Hqi.
  cbn [mbind Exc_bind]. unfold commit_lote. rewrite Hok.
  rewrite decide_True by done. by eexists.
Qed.

(** X22. A Batch created through the form shows in the reports: from a
    store that satisfies the declared keys, after a creation request whose
    fields are in order (whatever its date field), the totals of Query A
    add up to what they added up to before plus the new quantity, and so
    do the totals of Query B. *)
Theorem created_batch_in_reports (db : Db) (req : Request) (s : Session)
    (p a q : Z) :
  store_wf (db_store db) →
  session_keys s !! "user" ≠ None →
  batch_fields_valid db req p a q →
  db_fault db OpCommit = None →
  sum_list (snd <$> animais_por_proprietario
                      (db_store (lotes_post db req s).1.1))
    = sum_list (snd <$> animais_por_proprietario (db_store db)) + q
  ∧ sum_list (snd <$> animais_por_raca (db_store (lotes_post db req s).1.1))
    = sum_list (snd <$> animais_por_raca (db_store db)) + q.
Proof.
  intros Hwf Huser Hvalid Hok.
  pose proof Hvalid as (_ & _ & _ & _ & _ & _ & _ & _ & _ & _ & _ & _
                        & Hpin & Hain).
  destruct (lotes_post_valid db req s p a q Huser Hvalid Hok) as [d ->].
  cbn [fst].
  set (l := mkLote (next_id (lote_id <$> lotes (db_store db))) p a q d).
  assert (store_wf (db_store (set_lotes db (lotes (db_store db) ++ [l]))))
    as Hwf'.
  { apply (store_wf_add_lote _ l); [done| |done..]. apply next_id_fresh. }
  unfold animais_por_proprietario, animais_por_raca.
  rewrite <-!list_fmap_compose.
  change (sum_list (snd <$> q1 (db_store (set_lotes db (lotes (db_store db) ++ [l]))))
          = sum_list (snd <$> q1 (db_store db)) + q
          ∧ sum_list (snd <$> q2 (db_store (set_lotes db (lotes (db_store db) ++ [l]))))
            = sum_list (snd <$> q2 (db_store db)) + q).
  rewrite !q1_total_wf, !q2_total_wf by done.
  cbn [set_lotes db_store lotes].
  rewrite fmap_app, sum_list_app. cbn [fmap list_fmap l lote_quantidade].
  rewrite sum_list_cons. cbn [sum_list foldr]. lia.
Qed.

End batch_in_reports.

Lemma created_batch_in_reports_witness :
  store_wf (db_store healthy_db)
  ∧ sum_list (snd <$> animais_por_proprietario
       (db_store
          (@lotes_post ascii_pylib healthy_db bad_date_batch_form
             bob_session).1.1))
    = sum_list (snd <$> animais_por_proprietario (db_store healthy_db)) + 5.
Proof.
  assert (store_wf (db_store healthy_db)) as Hwf by solve_by_compute.
  split; [exact Hwf|].
  apply (@created_batch_in_reports ascii_pylib healthy_db bad_date_batch_form
           bob_session 1 1 5 Hwf); [discriminate | | reflexivity].
  exists "1", "1", "5".
  split_and!; try reflexivity; try discriminate; left.
Defined.
